(** * MJC3 joystick MEX gateway: a shallow embedding of
      [src/controllers/mjc3/mjc3_joystick_mex.cpp]

    The translation keeps the shape of the C++ file: two process-wide
    globals ([g_device], [g_initialized]), the helpers [initializeDevice],
    [cleanupDevice], [readJoystickData], [getDeviceInfo], and the entry
    point [mexFunction].  The hidapi library and the MATLAB MEX API are not
    part of the repository; every answer they can give during one call of
    [mexFunction] is a field of an environment record [Env], and every
    call made to them is logged in a trace so that frame properties can be
    stated. *)

From Stdlib Require Import ZArith List String Ascii Bool Lia.
From Stdlib Require Import Strings.Byte.
Import ListNotations.

Local Open Scope string_scope.
Local Open Scope Z_scope.

#[local] Set Warnings "-register-all".

(** ** Constants of the device *)

Definition MJC3_VID : Z := 0x1313.
Definition MJC3_PID : Z := 0x9000.
Definition REPORT_SIZE : Z := 5.

(** ** Pointers and MATLAB values *)

(** A [hid_device*]: an address, [nullptr] being 0. *)
Definition ptr := Z.
Definition nullptr : ptr := 0.
Definition is_null (p : ptr) : bool := p =? nullptr.

(** The MATLAB arrays this gateway receives or builds.  The real data of a
    double array is kept as integers: every double the gateway stores is an
    integer of small magnitude, and the only double it reads is cast to
    [int] at once.  A struct field that was never set is [None] (MATLAB
    shows it as the empty array). *)
Inductive mxArray : Type :=
| mxLogicalScalar (b : bool)
| mxDoubleMatrix (m n : nat) (pr : list Z)
| mxString (s : string)
| mxStruct (fields : list (string * option mxArray))
| mxCell (elems : list mxArray).

Definition mxCreateLogicalScalar (b : bool) : mxArray := mxLogicalScalar b.
Definition mxCreateDoubleScalar (v : Z) : mxArray := mxDoubleMatrix 1 1 [v].
Definition mxCreateString (s : string) : mxArray := mxString s.
(** [mxCreateStructMatrix(1, 1, nfields, field_names)]: a single struct
    whose fields are all unset. *)
Definition mxCreateStructMatrix (nfields : nat) (field_names : list string) : mxArray :=
  mxStruct (map (fun k => (k, None)) (firstn nfields field_names)).

Definition mxIsChar (a : mxArray) : bool :=
  match a with mxString _ => true | _ => false end.

Definition mxIsNumeric (a : mxArray) : bool :=
  match a with mxDoubleMatrix _ _ _ => true | _ => false end.

Fixpoint set_assoc (k : string) (v : mxArray)
         (l : list (string * option mxArray)) : list (string * option mxArray) :=
  match l with
  | [] => []
  | (k', v') :: l' =>
      if String.eqb k k' then (k', Some v) :: l' else (k', v') :: set_assoc k v l'
  end.

(** [mxSetField(info, 0, name, value)]; an unknown name changes nothing. *)
Definition mxSetField (info : mxArray) (name : string) (v : mxArray) : mxArray :=
  match info with
  | mxStruct fs => mxStruct (set_assoc name v fs)
  | other => other
  end.

Fixpoint get_assoc (k : string) (l : list (string * option mxArray)) : option mxArray :=
  match l with
  | [] => None
  | (k', v') :: l' => if String.eqb k k' then v' else get_assoc k l'
  end.

(** [mxGetField]: the value of a field, [None] when it is unset. *)
Definition mxGetField (info : mxArray) (name : string) : option mxArray :=
  match info with
  | mxStruct fs => get_assoc name fs
  | _ => None
  end.

(** ** C strings *)

(** The characters of a buffer up to, and without, its first NUL. *)
Fixpoint c_str (s : string) : string :=
  match s with
  | EmptyString => EmptyString
  | String c s' => if Ascii.eqb c zero then EmptyString else String c (c_str s')
  end.

(** [strcmp]: 0 exactly when the two C strings are equal. *)
Definition strcmp (a b : string) : Z :=
  match String.compare (c_str a) (c_str b) with
  | Eq => 0
  | Lt => -1
  | Gt => 1
  end.

(** [mxGetString(a, buf, buflen)]: at most [buflen - 1] characters are
    copied and the buffer is NUL-terminated. *)
Definition mxGetString (a : mxArray) (buflen : nat) : string :=
  match a with
  | mxString s => substring 0 (buflen - 1) s
  | _ => EmptyString
  end.

(** ** Integer conversions *)

Definition INT_MIN : Z := - 2 ^ 31.
Definition INT_MAX : Z := 2 ^ 31 - 1.

(** [(int)d] for an integer-valued double.  Outside the range of [int] C++
    leaves the result undefined; the value given here is the integer
    indefinite value the x86 conversion instruction yields.  A fractional
    double, which the cast would truncate, is not a value of this model. *)
Definition int_of_double (d : Z) : Z :=
  if (INT_MIN <=? d) && (d <=? INT_MAX) then d else INT_MIN.

Definition uint8_of_byte (b : byte) : Z := Z.of_N (Byte.to_N b).

(** [(int8_t)b]: the same eight bits read as two's complement. *)
Definition int8_of_byte (b : byte) : Z :=
  let v := uint8_of_byte b in
  if v <? 128 then v else v - 256.

(** ** The environment of one invocation *)

(** What hidapi answers.  Each function is called at most once per
    invocation of [mexFunction], so one record describes all a call can
    observe.  [env_hid_read_timeout] gives the return value and the bytes
    the device delivered; [env_mx_indeterminate] is what [mxGetScalar]
    yields on an empty array. *)
Record Env : Type := mkEnv {
  env_hid_init : Z;
  env_hid_open : Z -> Z -> ptr;
  env_hid_read_timeout : ptr -> Z -> Z -> Z * list byte;
  env_hid_error : ptr -> option string;
  env_hid_get_manufacturer_string : ptr -> Z;
  env_hid_get_product_string : ptr -> Z;
  env_hid_get_serial_number_string : ptr -> Z;
  env_mx_indeterminate : Z
}.

Inductive Event : Type :=
| EvHidInit
| EvHidExit
| EvHidOpen (vid pid : Z)
| EvHidSetNonblocking (d : ptr) (nonblock : Z)
| EvHidClose (d : ptr)
| EvHidReadTimeout (d : ptr) (len timeout : Z)
| EvHidError (d : ptr)
| EvHidGetManufacturer (d : ptr)
| EvHidGetProduct (d : ptr)
| EvHidGetSerial (d : ptr)
| EvWarn (id msg : string)
| EvAtExit.

(** ** Globals and the monad of the gateway *)

Record Globals : Type := mkGlobals {
  g_device : ptr;
  g_initialized : bool
}.

(** The trace lists the calls made so far, the most recent first. *)
Record World : Type := mkWorld {
  globals : Globals;
  trace : list Event
}.

Definition initial_globals : Globals := mkGlobals nullptr false.
Definition initial_world : World := mkWorld initial_globals [].

(** [mexErrMsgIdAndTxt] does not return: it unwinds to MATLAB. *)
Inductive Outcome (A : Type) : Type :=
| Returned (a : A)
| MexError (id msg : string).
Arguments Returned {A} a.
Arguments MexError {A} id msg.

Definition Mex (A : Type) : Type := Env -> World -> Outcome A * World.

Definition ret {A} (a : A) : Mex A := fun _ w => (Returned a, w).

Definition bind {A B} (c : Mex A) (k : A -> Mex B) : Mex B :=
  fun env w =>
    match c env w with
    | (Returned a, w') => k a env w'
    | (MexError id msg, w') => (MexError id msg, w')
    end.

Notation "x <- c ;; k" := (bind c (fun x => k))
  (at level 61, c at next level, right associativity).
Notation "c ;;; k" := (bind c (fun _ => k))
  (at level 61, right associativity).

Definition emit (e : Event) : Mex unit :=
  fun _ w => (Returned tt, mkWorld (globals w) (e :: trace w)).

Definition get_g_device : Mex ptr := fun _ w => (Returned (g_device (globals w)), w).
Definition get_g_initialized : Mex bool :=
  fun _ w => (Returned (g_initialized (globals w)), w).
Definition set_g_device (d : ptr) : Mex unit :=
  fun _ w => (Returned tt, mkWorld (mkGlobals d (g_initialized (globals w))) (trace w)).
Definition set_g_initialized (b : bool) : Mex unit :=
  fun _ w => (Returned tt, mkWorld (mkGlobals (g_device (globals w)) b) (trace w)).

Definition ask {A} (f : Env -> A) : Mex A := fun env w => (Returned (f env), w).

Definition mexWarnMsgIdAndTxt (id msg : string) : Mex unit := emit (EvWarn id msg).
Definition mexErrMsgIdAndTxt {A} (id msg : string) : Mex A :=
  fun _ w => (MexError id msg, w).
Definition mexAtExit : Mex unit := emit EvAtExit.

(** *** hidapi calls *)

Definition hid_init : Mex Z := emit EvHidInit ;;; ask env_hid_init.
Definition hid_exit : Mex unit := emit EvHidExit.
Definition hid_open (vid pid : Z) : Mex ptr :=
  emit (EvHidOpen vid pid) ;;; ask (fun env => env_hid_open env vid pid).
Definition hid_set_nonblocking (d : ptr) (nonblock : Z) : Mex unit :=
  emit (EvHidSetNonblocking d nonblock).
Definition hid_close (d : ptr) : Mex unit := emit (EvHidClose d).
Definition hid_error (d : ptr) : Mex (option string) :=
  emit (EvHidError d) ;;; ask (fun env => env_hid_error env d).

(** The bytes written by a read replace a prefix of the caller's buffer. *)
Definition overlay (data buffer : list byte) : list byte :=
  (data ++ skipn (List.length data) buffer)%list.

(** [hid_read_timeout(d, buffer, len, timeout)]: the return value, and the
    buffer with the bytes received, never more than [len] of them. *)
Definition hid_read_timeout (d : ptr) (buffer : list byte) (len timeout : Z)
  : Mex (Z * list byte) :=
  emit (EvHidReadTimeout d len timeout) ;;;
  ans <- ask (fun env => env_hid_read_timeout env d len timeout) ;;
  let '(result, data) := ans in
  ret (result, overlay (firstn (Z.to_nat (Z.min result len)) data) buffer).

Definition hid_get_manufacturer_string (d : ptr) : Mex Z :=
  emit (EvHidGetManufacturer d) ;;; ask (fun env => env_hid_get_manufacturer_string env d).
Definition hid_get_product_string (d : ptr) : Mex Z :=
  emit (EvHidGetProduct d) ;;; ask (fun env => env_hid_get_product_string env d).
Definition hid_get_serial_number_string (d : ptr) : Mex Z :=
  emit (EvHidGetSerial d) ;;; ask (fun env => env_hid_get_serial_number_string env d).

(** [mxGetScalar]: the first element. *)
Definition mxGetScalar (a : mxArray) : Mex Z :=
  match a with
  | mxDoubleMatrix _ _ (v :: _) => ret v
  | _ => ask env_mx_indeterminate
  end.

(** ** The functions of the source file *)

Definition initializeDevice : Mex bool :=
  init <- get_g_initialized ;;
  dev <- get_g_device ;;
  if init && negb (is_null dev) then ret true
  else
    r <- hid_init ;;
    if negb (r =? 0) then
      mexWarnMsgIdAndTxt "MJC3:InitFail" "Failed to initialize HID library" ;;;
      ret false
    else
      d <- hid_open MJC3_VID MJC3_PID ;;
      set_g_device d ;;;
      if is_null d then
        mexWarnMsgIdAndTxt "MJC3:OpenFail"
                           "Cannot open MJC3 joystick (VID:1313, PID:9000)" ;;;
        hid_exit ;;;
        ret false
      else
        hid_set_nonblocking d 1 ;;;
        set_g_initialized true ;;;
        ret true.

Definition cleanupDevice : Mex unit :=
  dev <- get_g_device ;;
  (if negb (is_null dev) then hid_close dev ;;; set_g_device nullptr else ret tt) ;;;
  init <- get_g_initialized ;;
  if init then hid_exit ;;; set_g_initialized false else ret tt.

(** The buffer is an out-parameter: it is returned next to the result. *)
Definition readJoystickData (buffer : list byte) (timeout_ms : Z)
  : Mex (bool * list byte) :=
  dev <- get_g_device ;;
  opened <- (if is_null dev then initializeDevice else ret true) ;;
  if negb opened then ret (false, buffer)
  else
    dev <- get_g_device ;;
    rb <- hid_read_timeout dev buffer REPORT_SIZE timeout_ms ;;
    let '(result, buffer') := rb in
    if result <? 0 then
      error_str <- hid_error dev ;;
      (match error_str with
       | Some _ => mexWarnMsgIdAndTxt "MJC3:ReadError" "HID read error occurred"
       | None => ret tt
       end) ;;;
      ret (false, buffer')
    else if result =? 0 then ret (false, buffer')
    else ret (true, buffer').

Definition field_names : list string :=
  ["connected"; "vendor_id"; "product_id"; "manufacturer"; "product"; "serial_number"].

Definition getDeviceInfo : Mex mxArray :=
  let info := mxCreateStructMatrix 6 field_names in
  dev <- get_g_device ;;
  opened <- (if is_null dev then initializeDevice else ret true) ;;
  if negb opened then
    ret (mxSetField info "connected" (mxCreateLogicalScalar false))
  else
    let info := mxSetField info "connected" (mxCreateLogicalScalar true) in
    let info := mxSetField info "vendor_id" (mxCreateDoubleScalar MJC3_VID) in
    let info := mxSetField info "product_id" (mxCreateDoubleScalar MJC3_PID) in
    dev <- get_g_device ;;
    r <- hid_get_manufacturer_string dev ;;
    let info := if r =? 0
                then mxSetField info "manufacturer" (mxCreateString "Thorlabs")
                else info in
    r <- hid_get_product_string dev ;;
    let info := if r =? 0
                then mxSetField info "product" (mxCreateString "MJC3 Joystick")
                else info in
    r <- hid_get_serial_number_string dev ;;
    let info := if r =? 0
                then mxSetField info "serial_number" (mxCreateString "Unknown")
                else info in
    ret info.

Definition zero_buffer : list byte := repeat x00 (Z.to_nat REPORT_SIZE).

(** The five doubles written to the output row. *)
Definition decode (buffer : list byte) : list Z :=
  [ int8_of_byte (nth 0 buffer x00);
    int8_of_byte (nth 1 buffer x00);
    int8_of_byte (nth 2 buffer x00);
    uint8_of_byte (nth 3 buffer x00);
    uint8_of_byte (nth 4 buffer x00) ].

Definition empty_matrix : mxArray := mxDoubleMatrix 0 0 [].

(** [mexFunction(nlhs, plhs, nrhs, prhs)]: [nrhs] is the length of [prhs];
    the value is [plhs[0]], [None] when it was not assigned. *)
Definition mexFunction (nlhs : Z) (prhs : list mxArray) : Mex (option mxArray) :=
  mexAtExit ;;;
  match prhs with
  | [] => mexErrMsgIdAndTxt "MJC3:InvalidInput" "At least one input argument required"
  | arg0 :: rest =>
      if negb (mxIsChar arg0) then
        mexErrMsgIdAndTxt "MJC3:InvalidInput" "First argument must be a command string"
      else
        let command := mxGetString arg0 64 in
        if strcmp command "read" =? 0 then
          timeout_ms <- (match rest with
                         | arg1 :: _ =>
                             if mxIsNumeric arg1
                             then d <- mxGetScalar arg1 ;; ret (int_of_double d)
                             else ret 100
                         | [] => ret 100
                         end) ;;
          rb <- readJoystickData zero_buffer timeout_ms ;;
          let '(ok, buffer) := rb in
          if ok then ret (Some (mxDoubleMatrix 1 5 (decode buffer)))
          else ret (Some empty_matrix)
        else if strcmp command "info" =? 0 then
          info <- getDeviceInfo ;;
          ret (Some info)
        else if strcmp command "test" =? 0 then
          ret (Some (mxCreateLogicalScalar true))
        else if strcmp command "close" =? 0 then
          cleanupDevice ;;;
          ret (if nlhs >? 0 then Some (mxCreateLogicalScalar true) else None)
        else
          mexErrMsgIdAndTxt "MJC3:InvalidCommand"
            "Unknown command. Valid commands: 'read', 'info', 'test', 'close'"
  end.

(** ** What the lazy open leaves behind *)

(** The handle in [g_device] once a helper has run its "open if needed"
    prologue: the existing handle, else what [hid_open] returned, else
    [nullptr]. *)
Definition session_device (env : Env) (g : Globals) : ptr :=
  if is_null (g_device g) then
    if env_hid_init env =? 0 then env_hid_open env MJC3_VID MJC3_PID else nullptr
  else g_device g.

(** The globals after that prologue. *)
Definition session_globals (env : Env) (g : Globals) : Globals :=
  if is_null (g_device g) then
    if env_hid_init env =? 0 then
      let d := env_hid_open env MJC3_VID MJC3_PID in
      mkGlobals d (if is_null d then g_initialized g else true)
    else g
  else g.

(** The timeout the [read] command passes on, from its optional argument. *)
Definition read_timeout (env : Env) (rest : list mxArray) : Z :=
  match rest with
  | mxDoubleMatrix _ _ (v :: _) :: _ => int_of_double v
  | mxDoubleMatrix _ _ [] :: _ => int_of_double (env_mx_indeterminate env)
  | _ => 100
  end.

(** The session invariant of the two globals. *)
Definition session_inv (g : Globals) : Prop :=
  g_initialized g = true <-> g_device g <> nullptr.

(** * Descriptions derived from the functions above *)

(** The value [readJoystickData] computes, as a function of the answers of
    the transport: no handle gives [false]; otherwise the sign of the return
    value of the read decides, and the buffer holds what was received. *)
Definition poll (env : Env) (g : Globals) (buffer : list byte) (timeout_ms : Z)
  : bool * list byte :=
  let d := session_device env g in
  if is_null d then (false, buffer)
  else
    let '(result, data) := env_hid_read_timeout env d REPORT_SIZE timeout_ms in
    (0 <? result,
     overlay (firstn (Z.to_nat (Z.min result REPORT_SIZE)) data) buffer).

(** The command the dispatcher sees: the C string in [command] after
    [mxGetString], when there is a first argument and it is a char array. *)
Definition command_of (prhs : list mxArray) : option string :=
  match prhs with
  | [] => None
  | arg0 :: _ => if mxIsChar arg0 then Some (c_str (mxGetString arg0 64)) else None
  end.

(** The four names the dispatcher compares against. *)
Definition valid_commands : list string := ["read"; "info"; "test"; "close"].

(** What [read] hands back: the decoded row when the poll succeeded, the
    0-by-0 matrix otherwise. *)
Definition read_output (env : Env) (g : Globals) (rest : list mxArray) : mxArray :=
  let '(ok, buffer) := poll env g zero_buffer (read_timeout env rest) in
  if ok then mxDoubleMatrix 1 5 (decode buffer) else empty_matrix.

(** A descriptor field: the fixed text when the query returned 0, unset
    otherwise. *)
Definition descriptor_field (query_result : Z) (text : string) : option mxArray :=
  if query_result =? 0 then Some (mxCreateString text) else None.

(** The record [getDeviceInfo] builds, as a function of the answers of the
    transport. *)
Definition info_output (env : Env) (g : Globals) : mxArray :=
  let d := session_device env g in
  if is_null d then
    mxStruct [ ("connected", Some (mxCreateLogicalScalar false));
               ("vendor_id", None); ("product_id", None);
               ("manufacturer", None); ("product", None); ("serial_number", None) ]
  else
    mxStruct [ ("connected", Some (mxCreateLogicalScalar true));
               ("vendor_id", Some (mxCreateDoubleScalar MJC3_VID));
               ("product_id", Some (mxCreateDoubleScalar MJC3_PID));
               ("manufacturer",
                descriptor_field (env_hid_get_manufacturer_string env d) "Thorlabs");
               ("product",
                descriptor_field (env_hid_get_product_string env d) "MJC3 Joystick");
               ("serial_number",
                descriptor_field (env_hid_get_serial_number_string env d) "Unknown") ].

(** The calls [cleanupDevice] makes, the most recent first. *)
Definition cleanup_events (g : Globals) : list Event :=
  ((if g_initialized g then [EvHidExit] else [])
   ++ (if is_null (g_device g) then [] else [EvHidClose (g_device g)]))%list.

(** The dispatcher's [if]/[else if] chain, by the name it compared. *)
Inductive Command : Type := CmdRead | CmdInfo | CmdTest | CmdClose | CmdUnknown.

(** The branch taken for the C string [c]. *)
Definition classify (c : string) : Command :=
  if String.eqb c "read" then CmdRead
  else if String.eqb c "info" then CmdInfo
  else if String.eqb c "test" then CmdTest
  else if String.eqb c "close" then CmdClose
  else CmdUnknown.

(** A transport that answers the same whatever it is asked. *)
Definition constant_env (init_result : Z) (opened : ptr)
           (read_answer : Z * list byte) (error_text : option string)
           (query_result : Z) : Env :=
  mkEnv init_result (fun _ _ => opened) (fun _ _ _ => read_answer)
        (fun _ => error_text)
        (fun _ => query_result) (fun _ => query_result) (fun _ => query_result) 0.

(** A session already open on handle [d], nothing logged yet. *)
Definition open_world (d : ptr) : World := mkWorld (mkGlobals d true) [].

(** The report of the decoding example. *)
Definition sample_report : list byte := [x81; x7f; x00; x01; xff].

(** The calls of a poll on an open handle, the most recent first. *)
Definition read_events (env : Env) (d : ptr) (timeout_ms : Z) : list Event :=
  ((if fst (env_hid_read_timeout env d REPORT_SIZE timeout_ms) <? 0 then
      (match env_hid_error env d with
       | Some _ => [EvWarn "MJC3:ReadError" "HID read error occurred"]
       | None => []
       end) ++ [EvHidError d]
    else [])
   ++ [EvHidReadTimeout d REPORT_SIZE timeout_ms])%list.

(** The report-size rule as the specification words it: a byte count other
    than 0 and 5 yields the empty result of a failed read. *)
Definition report_size_rule : Prop :=
  forall env w nlhs rest d r data,
    session_device env (globals w) = d -> d <> nullptr ->
    env_hid_read_timeout env d REPORT_SIZE (read_timeout env rest) = (r, data) ->
    r <> 0 -> r <> 5 ->
    fst (mexFunction nlhs (mxString "read" :: rest) env w)
    = Returned (Some empty_matrix).

(** A device on handle 7 whose read delivers three bytes. *)
Definition short_report_env : Env :=
  constant_env 0 7 (3, [x01; x02; x03]) None 0.

(** A device on handle 7 whose descriptor queries fail. *)
Definition failing_query_env : Env := constant_env 0 7 (0, []) None (-1).

(** No device: [hid_open] returns [nullptr]. *)
Definition no_device_env : Env := constant_env 0 nullptr (0, []) None 0.

(** The rule on the identifiers as the specification words it: every [info]
    record carries both. *)
Definition ids_always_present : Prop :=
  forall env w nlhs,
  exists info,
    fst (mexFunction nlhs [mxString "info"] env w) = Returned (Some info)
    /\ mxGetField info "vendor_id" = Some (mxCreateDoubleScalar 0x1313)
    /\ mxGetField info "product_id" = Some (mxCreateDoubleScalar 0x9000).


(** * Traces of whole invocations *)

(** The calls of the "open if needed" prologue, the most recent first:
    nothing when a handle is there; else [hid_init], and after a successful
    [hid_init] the [hid_open], followed by [hid_set_nonblocking] on success
    and by a warning and [hid_exit] on failure. *)
Definition open_events (env : Env) (g : Globals) : list Event :=
  if is_null (g_device g) then
    if env_hid_init env =? 0 then
      let d := env_hid_open env MJC3_VID MJC3_PID in
      if is_null d then
        [ EvHidExit;
          EvWarn "MJC3:OpenFail" "Cannot open MJC3 joystick (VID:1313, PID:9000)";
          EvHidOpen MJC3_VID MJC3_PID; EvHidInit ]
      else [ EvHidSetNonblocking d 1; EvHidOpen MJC3_VID MJC3_PID; EvHidInit ]
    else [ EvWarn "MJC3:InitFail" "Failed to initialize HID library"; EvHidInit ]
  else [].

(** The calls of [readJoystickData]. *)
Definition poll_events (env : Env) (g : Globals) (timeout_ms : Z) : list Event :=
  ((if is_null (session_device env g) then []
    else read_events env (session_device env g) timeout_ms)
   ++ open_events env g)%list.

(** The calls of [getDeviceInfo]. *)
Definition info_events (env : Env) (g : Globals) : list Event :=
  ((if is_null (session_device env g) then []
    else [ EvHidGetSerial (session_device env g);
           EvHidGetProduct (session_device env g);
           EvHidGetManufacturer (session_device env g) ])
   ++ open_events env g)%list.

(** The calls of the body of [mexFunction], after [mexAtExit]. *)
Definition command_events (env : Env) (g : Globals) (prhs : list mxArray)
  : list Event :=
  match option_map classify (command_of prhs) with
  | Some CmdRead => poll_events env g (read_timeout env (tl prhs))
  | Some CmdInfo => info_events env g
  | Some CmdClose => cleanup_events g
  | _ => []
  end.

(** The calls that open or release the device or the library. *)
Definition lifecycle_event (e : Event) : bool :=
  match e with
  | EvHidInit | EvHidExit | EvHidOpen _ _ | EvHidSetNonblocking _ _
  | EvHidClose _ => true
  | _ => false
  end.

Definition is_read (e : Event) : bool :=
  match e with EvHidReadTimeout _ _ _ => true | _ => false end.
Definition is_init (e : Event) : bool :=
  match e with EvHidInit => true | _ => false end.
Definition is_exit (e : Event) : bool :=
  match e with EvHidExit => true | _ => false end.
Definition is_close (e : Event) : bool :=
  match e with EvHidClose _ => true | _ => false end.
(** [hid_set_nonblocking] is called once per successful [hid_open]. *)
Definition is_opened (e : Event) : bool :=
  match e with EvHidSetNonblocking _ _ => true | _ => false end.
Definition is_init_failure (e : Event) : bool :=
  match e with
  | EvWarn id _ => String.eqb id "MJC3:InitFail"
  | _ => false
  end.

Definition count_events (p : Event -> bool) (tr : list Event) : nat :=
  List.length (filter p tr).

(** One call from MATLAB: the arguments and what the transport answers
    while it runs. *)
Record Invocation : Type := mkInvocation {
  inv_nlhs : Z;
  inv_prhs : list mxArray;
  inv_env : Env
}.

(** The MEX file stays loaded between calls: the globals persist, also
    through a call that ended in an error. *)
Fixpoint run_session (calls : list Invocation) (w : World) : World :=
  match calls with
  | [] => w
  | c :: calls' =>
      run_session calls' (snd (mexFunction (inv_nlhs c) (inv_prhs c) (inv_env c) w))
  end.

(** Handles opened and not yet closed, libraries initialised and not yet
    shut down, as the trace and the globals must agree on them. *)
Definition balanced (w : World) : Prop :=
  count_events is_opened (trace w)
  = (count_events is_close (trace w)
     + (if is_null (g_device (globals w)) then 0 else 1))%nat
  /\ count_events is_init (trace w)
     = (count_events is_exit (trace w)
        + count_events is_init_failure (trace w)
        + (if g_initialized (globals w) then 1 else 0))%nat.



(** * Proofs *)

Ltac mex_unfold :=
  cbv [bind ret emit ask get_g_device get_g_initialized set_g_device
       set_g_initialized mexWarnMsgIdAndTxt mexErrMsgIdAndTxt mexAtExit
       hid_init hid_exit hid_open hid_set_nonblocking hid_close hid_error
       hid_read_timeout hid_get_manufacturer_string hid_get_product_string
       hid_get_serial_number_string mxGetScalar].

Lemma is_null_false (d : ptr) : is_null d = false <-> d <> nullptr.
Proof. unfold is_null. apply Z.eqb_neq. Qed.

Lemma is_null_true (d : ptr) : is_null d = true <-> d = nullptr.
Proof. unfold is_null. apply Z.eqb_eq. Qed.

Ltac break_if :=
  match goal with
  | |- context [if ?b then _ else _] => destruct b eqn:?
  end.

(** The three-way test on the return value of the read. *)
Ltac sign_cases r :=
  let Hneg := fresh "Hneg" in
  let Hz := fresh "Hz" in
  destruct (r <? 0) eqn:Hneg; cbn;
  [ apply Z.ltb_lt in Hneg;
    replace (0 <? r) with false by (symmetry; apply Z.ltb_ge; lia);
    match goal with
    | |- context [env_hid_error ?e ?d] => destruct (env_hid_error e d)
    end; reflexivity
  | apply Z.ltb_ge in Hneg;
    destruct (r =? 0) eqn:Hz; cbn;
    [ apply Z.eqb_eq in Hz; subst r; reflexivity
    | apply Z.eqb_neq in Hz;
      replace (0 <? r) with true by (symmetry; apply Z.ltb_lt; lia);
      reflexivity ] ].

Section Read.
Variable env : Env.
Variable w : World.

Lemma readJoystickData_value (buffer : list byte) (timeout_ms : Z) :
  fst (readJoystickData buffer timeout_ms env w)
  = Returned (poll env (globals w) buffer timeout_ms).
Proof.
  unfold readJoystickData, poll, session_device, initializeDevice. mex_unfold.
  destruct (is_null (g_device (globals w))) eqn:Hd; cbn.
  - apply is_null_true in Hd. rewrite Hd. rewrite Bool.andb_false_r.
    destruct (env_hid_init env =? 0); cbn; [|reflexivity].
    destruct (is_null (env_hid_open env MJC3_VID MJC3_PID)); cbn; [reflexivity|].
    destruct (env_hid_read_timeout env _ REPORT_SIZE timeout_ms) as [r data]; cbn.
    sign_cases r.
  - rewrite Hd.
    destruct (env_hid_read_timeout env _ REPORT_SIZE timeout_ms) as [r data]; cbn.
    sign_cases r.
Qed.

Lemma readJoystickData_globals (buffer : list byte) (timeout_ms : Z) :
  globals (snd (readJoystickData buffer timeout_ms env w))
  = session_globals env (globals w).
Proof.
  unfold readJoystickData, session_globals, initializeDevice. mex_unfold.
  destruct (is_null (g_device (globals w))) eqn:Hd; cbn.
  - apply is_null_true in Hd. rewrite Hd. rewrite Bool.andb_false_r.
    destruct (env_hid_init env =? 0); cbn; [|reflexivity].
    destruct (is_null (env_hid_open env MJC3_VID MJC3_PID)); cbn; [reflexivity|].
    destruct (env_hid_read_timeout env _ REPORT_SIZE timeout_ms) as [r data]; cbn.
    repeat (break_if; cbn); try reflexivity;
      destruct (env_hid_error env _); reflexivity.
  - destruct (env_hid_read_timeout env _ REPORT_SIZE timeout_ms) as [r data]; cbn.
    repeat (break_if; cbn); try reflexivity;
      destruct (env_hid_error env _); reflexivity.
Qed.
End Read.

(** ** String comparison *)

Lemma string_compare_refl (s : string) : (s ?= s)%string = Eq.
Proof.
  pose proof (String.compare_antisym s s) as H.
  destruct (s ?= s)%string; [reflexivity | discriminate H | discriminate H].
Qed.

Lemma strcmp_eqb (a b : string) :
  (strcmp a b =? 0) = String.eqb (c_str a) (c_str b).
Proof.
  unfold strcmp. destruct (String.eqb_spec (c_str a) (c_str b)) as [E|E].
  - rewrite E, string_compare_refl. reflexivity.
  - destruct (c_str a ?= c_str b)%string eqn:C; try reflexivity.
    apply String.compare_eq_iff in C. contradiction.
Qed.

Lemma command_of_cons (prhs : list mxArray) (c : string) :
  command_of prhs = Some c ->
  exists arg0 rest, prhs = arg0 :: rest /\ mxIsChar arg0 = true
                    /\ c_str (mxGetString arg0 64) = c.
Proof.
  destruct prhs as [|arg0 rest]; [discriminate|]. cbn.
  destruct (mxIsChar arg0) eqn:Hc; [|discriminate].
  intros [= <-]. exists arg0, rest. auto.
Qed.

(** ** The dispatcher, command by command *)

Lemma bind_returned {A B} (c : Mex A) (k : A -> Mex B) env w a :
  fst (c env w) = Returned a ->
  bind c k env w = k a env (snd (c env w)).
Proof.
  unfold bind. destruct (c env w) as [o w']. cbn. intros ->. reflexivity.
Qed.

Lemma timeout_argument env w (rest : list mxArray) :
  (match rest with
   | arg1 :: _ =>
       if mxIsNumeric arg1
       then d <- mxGetScalar arg1 ;; ret (int_of_double d)
       else ret 100
   | [] => ret 100
   end) env w = (Returned (read_timeout env rest), w).
Proof.
  destruct rest as [|arg1 rest']; [reflexivity|].
  destruct arg1 as [b|m n pr|s|fs|es]; try reflexivity.
  destruct pr; reflexivity.
Qed.

Section Dispatch.
Variable env : Env.
Variable w : World.
Variable nlhs : Z.

(** The world in which the body of [mexFunction] starts. *)
Let w0 : World := mkWorld (globals w) (EvAtExit :: trace w).

Lemma mexFunction_read arg0 rest :
  command_of (arg0 :: rest) = Some "read" ->
  mexFunction nlhs (arg0 :: rest) env w
  = (Returned (Some (read_output env (globals w) rest)),
     snd (readJoystickData zero_buffer (read_timeout env rest) env w0)).
Proof.
  intros Hcmd. apply command_of_cons in Hcmd.
  destruct Hcmd as (a & r & [= <- <-] & Hc & Hs). unfold mexFunction.
  unfold bind at 1. cbn [mexAtExit emit fst snd].
  rewrite Hc, !strcmp_eqb, Hs. cbn [negb c_str Ascii.eqb Bool.eqb zero String.eqb].
  unfold bind at 1. rewrite timeout_argument.
  rewrite (bind_returned _ _ _ _ _ (readJoystickData_value env _ _ _)).
  cbn [globals]. unfold read_output.
  destruct (poll env (globals w) zero_buffer (read_timeout env rest)) as [ok buffer].
  destruct ok; reflexivity.
Qed.
End Dispatch.

(** ** [getDeviceInfo] as a function of the transport's answers *)

Section Info.
Variable env : Env.
Variable w : World.

Lemma getDeviceInfo_value :
  fst (getDeviceInfo env w) = Returned (info_output env (globals w)).
Proof.
  unfold getDeviceInfo, info_output, session_device, initializeDevice,
    descriptor_field.
  mex_unfold.
  destruct (is_null (g_device (globals w))) eqn:Hd; cbn.
  - apply is_null_true in Hd. rewrite Hd. rewrite Bool.andb_false_r.
    destruct (env_hid_init env =? 0); cbn; [|reflexivity].
    destruct (is_null (env_hid_open env MJC3_VID MJC3_PID)); cbn; [reflexivity|].
    destruct (env_hid_get_manufacturer_string env _ =? 0);
      destruct (env_hid_get_product_string env _ =? 0);
      destruct (env_hid_get_serial_number_string env _ =? 0); reflexivity.
  - rewrite Hd.
    destruct (env_hid_get_manufacturer_string env _ =? 0);
      destruct (env_hid_get_product_string env _ =? 0);
      destruct (env_hid_get_serial_number_string env _ =? 0); reflexivity.
Qed.

Lemma getDeviceInfo_globals :
  globals (snd (getDeviceInfo env w)) = session_globals env (globals w).
Proof.
  unfold getDeviceInfo, session_globals, initializeDevice. mex_unfold.
  destruct (is_null (g_device (globals w))) eqn:Hd; cbn.
  - apply is_null_true in Hd. rewrite Hd. rewrite Bool.andb_false_r.
    destruct (env_hid_init env =? 0); cbn; [|reflexivity].
    destruct (is_null (env_hid_open env MJC3_VID MJC3_PID)); reflexivity.
  - reflexivity.
Qed.
End Info.

Lemma mexFunction_info env w (nlhs : Z) (prhs : list mxArray) :
  command_of prhs = Some "info" ->
  mexFunction nlhs prhs env w
  = (Returned (Some (info_output env (globals w))),
     snd (getDeviceInfo env (mkWorld (globals w) (EvAtExit :: trace w)))).
Proof.
  intros Hcmd. apply command_of_cons in Hcmd.
  destruct Hcmd as (a & r & -> & Hc & Hs). unfold mexFunction.
  unfold bind at 1. cbn [mexAtExit emit fst snd].
  rewrite Hc, !strcmp_eqb, Hs. cbn [negb c_str Ascii.eqb Bool.eqb zero String.eqb].
  rewrite (bind_returned _ _ _ _ _ (getDeviceInfo_value env _)).
  reflexivity.
Qed.

(** ** [cleanupDevice] and the remaining commands *)

Lemma cleanupDevice_run env w :
  cleanupDevice env w
  = (Returned tt, mkWorld initial_globals (cleanup_events (globals w) ++ trace w)%list).
Proof.
  unfold cleanupDevice, cleanup_events, initial_globals. mex_unfold.
  destruct w as [[d i] tr]. cbn.
  destruct (is_null d) eqn:Hd; cbn.
  - apply is_null_true in Hd. subst d. destruct i; reflexivity.
  - destruct i; reflexivity.
Qed.

Lemma classify_unknown (c : string) :
  classify c = CmdUnknown <-> ~ In c valid_commands.
Proof.
  unfold classify, valid_commands. cbn [In].
  destruct (String.eqb_spec c "read"); [split; [discriminate | intros H; exfalso; apply H; auto] |].
  destruct (String.eqb_spec c "info"); [split; [discriminate | intros H; exfalso; apply H; auto] |].
  destruct (String.eqb_spec c "test"); [split; [discriminate | intros H; exfalso; apply H; auto] |].
  destruct (String.eqb_spec c "close"); [split; [discriminate | intros H; exfalso; apply H; auto 6] |].
  split; [|reflexivity]. intros _ [H|[H|[H|[H|[]]]]]; congruence.
Qed.

Ltac enter_dispatch Hc :=
  unfold mexFunction; unfold bind at 1; cbn [mexAtExit emit fst snd];
  rewrite Hc, !strcmp_eqb;
  cbn [negb c_str Ascii.eqb Bool.eqb zero String.eqb].

Lemma mexFunction_test env w nlhs prhs :
  command_of prhs = Some "test" ->
  mexFunction nlhs prhs env w
  = (Returned (Some (mxCreateLogicalScalar true)),
     mkWorld (globals w) (EvAtExit :: trace w)).
Proof.
  intros Hcmd. apply command_of_cons in Hcmd.
  destruct Hcmd as (a & r & -> & Hc & Hs).
  enter_dispatch Hc. rewrite Hs. reflexivity.
Qed.

Lemma mexFunction_close env w nlhs prhs :
  command_of prhs = Some "close" ->
  mexFunction nlhs prhs env w
  = (Returned (if nlhs >? 0 then Some (mxCreateLogicalScalar true) else None),
     mkWorld initial_globals
             (cleanup_events (globals w) ++ EvAtExit :: trace w)%list).
Proof.
  intros Hcmd. apply command_of_cons in Hcmd.
  destruct Hcmd as (a & r & -> & Hc & Hs).
  enter_dispatch Hc. rewrite Hs. cbn [String.eqb Ascii.eqb Bool.eqb].
  unfold bind. rewrite cleanupDevice_run. reflexivity.
Qed.

Lemma mexFunction_unknown env w nlhs prhs c :
  command_of prhs = Some c ->
  classify c = CmdUnknown ->
  mexFunction nlhs prhs env w
  = (MexError "MJC3:InvalidCommand"
              "Unknown command. Valid commands: 'read', 'info', 'test', 'close'",
     mkWorld (globals w) (EvAtExit :: trace w)).
Proof.
  intros Hcmd Hu. apply command_of_cons in Hcmd.
  destruct Hcmd as (a & r & -> & Hc & Hs).
  enter_dispatch Hc. rewrite Hs. revert Hu. unfold classify.
  destruct (String.eqb c "read"); [discriminate|].
  destruct (String.eqb c "info"); [discriminate|].
  destruct (String.eqb c "test"); [discriminate|].
  destruct (String.eqb c "close"); [discriminate|].
  reflexivity.
Qed.

Lemma mexFunction_no_command env w nlhs prhs :
  command_of prhs = None ->
  exists msg,
    mexFunction nlhs prhs env w
    = (MexError "MJC3:InvalidInput" msg, mkWorld (globals w) (EvAtExit :: trace w)).
Proof.
  destruct prhs as [|arg0 rest]; cbn [command_of].
  - intros _. eexists. reflexivity.
  - destruct (mxIsChar arg0) eqn:Hc; [discriminate|]. intros _.
    eexists. unfold mexFunction. unfold bind at 1. cbn [mexAtExit emit fst snd].
    rewrite Hc. reflexivity.
Qed.

Lemma classify_cases (c : string) :
  match classify c with
  | CmdRead => c = "read"
  | CmdInfo => c = "info"
  | CmdTest => c = "test"
  | CmdClose => c = "close"
  | CmdUnknown => True
  end.
Proof.
  unfold classify.
  destruct (String.eqb_spec c "read"); [assumption|].
  destruct (String.eqb_spec c "info"); [assumption|].
  destruct (String.eqb_spec c "test"); [assumption|].
  destruct (String.eqb_spec c "close"); [assumption|].
  exact I.
Qed.

(** The globals after any invocation. *)
Lemma mexFunction_globals env w nlhs prhs :
  globals (snd (mexFunction nlhs prhs env w))
  = match option_map classify (command_of prhs) with
    | Some CmdRead | Some CmdInfo => session_globals env (globals w)
    | Some CmdClose => initial_globals
    | _ => globals w
    end.
Proof.
  destruct (command_of prhs) as [c|] eqn:Hcmd; cbn [option_map].
  - pose proof (classify_cases c) as Hk.
    destruct (classify c) eqn:Hcl; try subst c.
    + destruct (command_of_cons _ _ Hcmd) as (a & r & -> & _).
      rewrite mexFunction_read by assumption. cbn [snd].
      rewrite readJoystickData_globals. reflexivity.
    + rewrite mexFunction_info by assumption. cbn [snd].
      rewrite getDeviceInfo_globals. reflexivity.
    + rewrite mexFunction_test by assumption. reflexivity.
    + rewrite mexFunction_close by assumption. reflexivity.
    + rewrite (mexFunction_unknown _ _ _ _ _ Hcmd Hcl). reflexivity.
  - destruct (mexFunction_no_command env w nlhs prhs Hcmd) as [msg ->]. reflexivity.
Qed.

(** ** A poll on an open session, with its trace *)

Lemma readJoystickData_open_run env w buffer timeout_ms :
  is_null (g_device (globals w)) = false ->
  readJoystickData buffer timeout_ms env w
  = (Returned (poll env (globals w) buffer timeout_ms),
     mkWorld (globals w)
             (read_events env (g_device (globals w)) timeout_ms ++ trace w)%list).
Proof.
  intros Hd. unfold readJoystickData, poll, session_device, read_events. mex_unfold.
  rewrite !Hd. cbn.
  destruct (env_hid_read_timeout env _ REPORT_SIZE timeout_ms) as [r data]; cbn.
  destruct (r <? 0) eqn:Hneg; cbn.
  - apply Z.ltb_lt in Hneg.
    replace (0 <? r) with false by (symmetry; apply Z.ltb_ge; lia).
    destruct (env_hid_error env _); reflexivity.
  - apply Z.ltb_ge in Hneg. destruct (r =? 0) eqn:Hz; cbn.
    + apply Z.eqb_eq in Hz; subst r; reflexivity.
    + apply Z.eqb_neq in Hz.
      replace (0 <? r) with true by (symmetry; apply Z.ltb_lt; lia).
      reflexivity.
Qed.

(** With a device at hand, the poll is decided by the answer of the read. *)
Lemma poll_with_device env g buffer timeout_ms d r data :
  session_device env g = d -> d <> nullptr ->
  env_hid_read_timeout env d REPORT_SIZE timeout_ms = (r, data) ->
  poll env g buffer timeout_ms
  = (0 <? r, overlay (firstn (Z.to_nat (Z.min r REPORT_SIZE)) data) buffer).
Proof.
  intros Hd Hnn Hread. unfold poll. rewrite Hd.
  apply is_null_false in Hnn. rewrite Hnn, Hread. reflexivity.
Qed.

(** ** The session invariant, descriptor fields and plain command texts *)

Lemma initializeDevice_session env w :
  session_inv (globals w) ->
  let after := globals (snd (initializeDevice env w)) in
  session_inv after
  /\ (fst (initializeDevice env w) = Returned true ->
      g_initialized after = true /\ g_device after <> nullptr)
  /\ (fst (initializeDevice env w) = Returned false -> after = initial_globals)
  /\ (exists b, fst (initializeDevice env w) = Returned b).
Proof.
  destruct w as [[d i] tr]. unfold session_inv, initializeDevice. mex_unfold. cbn.
  intros [H1 H2].
  destruct i; cbn.
  - specialize (H1 eq_refl). apply is_null_false in H1. rewrite H1. cbn.
    apply is_null_false in H1.
    repeat split; auto; try discriminate. eauto.
  - assert (Hd : d = nullptr).
    { destruct (Z.eq_dec d nullptr) as [E|E]; [exact E|]. specialize (H2 E). discriminate. }
    subst d.
    destruct (env_hid_init env =? 0); cbn.
    + destruct (is_null (env_hid_open env MJC3_VID MJC3_PID)) eqn:Ho; cbn.
      * apply is_null_true in Ho. rewrite Ho.
        repeat split; auto; try discriminate; try contradiction. eauto.
      * apply is_null_false in Ho.
        repeat split; auto; try discriminate. eauto.
    + repeat split; auto; try discriminate; try contradiction. eauto.
Qed.

Lemma session_globals_inv env g :
  session_inv g -> session_inv (session_globals env g).
Proof.
  unfold session_globals, session_inv. destruct g as [d i]. cbn.
  intros [H1 H2].
  destruct (is_null d) eqn:Hd; [|tauto].
  destruct (env_hid_init env =? 0); [|tauto].
  destruct (is_null (env_hid_open env MJC3_VID MJC3_PID)) eqn:Ho; cbn.
  - apply is_null_true in Ho. rewrite Ho. apply is_null_true in Hd. subst d. tauto.
  - apply is_null_false in Ho. tauto.
Qed.

Lemma initial_globals_inv : session_inv initial_globals.
Proof. unfold session_inv. cbn. split; [discriminate | intros H; contradiction]. Qed.

(** With a device at hand, each descriptor field holds its fixed text when
    the query returned 0 and is unset when the query failed. *)
Lemma info_descriptor_fields env w nlhs rest d :
  session_device env (globals w) = d -> d <> nullptr ->
  exists info,
    fst (mexFunction nlhs (mxString "info" :: rest) env w) = Returned (Some info)
    /\ mxGetField info "manufacturer"
       = descriptor_field (env_hid_get_manufacturer_string env d) "Thorlabs"
    /\ mxGetField info "product"
       = descriptor_field (env_hid_get_product_string env d) "MJC3 Joystick"
    /\ mxGetField info "serial_number"
       = descriptor_field (env_hid_get_serial_number_string env d) "Unknown".
Proof.
  intros Hd Hnn. eexists. split.
  - rewrite (mexFunction_info env w nlhs (mxString "info" :: rest) eq_refl).
    reflexivity.
  - unfold info_output. rewrite Hd. apply is_null_false in Hnn. rewrite Hnn.
    repeat split.
Qed.






(** * The properties of the specification, one by one *)

(** C1, as the specification states it, fails: a read that delivers three
    bytes is not an error; [readJoystickData] answers [true] and the
    dispatcher returns the row decoded from the three bytes and the two
    zeros the buffer was initialised with. *)
Lemma C1_short_report_is_decoded :
  fst (readJoystickData zero_buffer 100 short_report_env (open_world 7))
  = Returned (true, [x01; x02; x03; x00; x00])
  /\ fst (mexFunction 1 [mxString "read"] short_report_env (open_world 7))
     = Returned (Some (mxDoubleMatrix 1 5 [1; 2; 3; 0; 0]))
  /\ ~ report_size_rule.
Proof.
  split; [reflexivity|]. split; [reflexivity|].
  intros H.
  specialize (H short_report_env (open_world 7) 1 [] 7 3 [x01; x02; x03]
                eq_refl ltac:(discriminate) eq_refl ltac:(discriminate)
                ltac:(discriminate)).
  discriminate H.
Qed.

(** C1 (amended): with a device at hand, the return value of the transport
    read decides by its sign alone.  A negative value and 0 give the empty
    result; every positive byte count, 5 or not, is a successful read, and
    the row returned is decoded from the zero-initialised buffer onto which
    the received bytes were copied. *)
Theorem C1_read_decides_by_sign env w nlhs rest d r data :
  session_device env (globals w) = d -> d <> nullptr ->
  env_hid_read_timeout env d REPORT_SIZE (read_timeout env rest) = (r, data) ->
  let received := firstn (Z.to_nat (Z.min r REPORT_SIZE)) data in
  fst (readJoystickData zero_buffer (read_timeout env rest) env w)
  = Returned (0 <? r, overlay received zero_buffer)
  /\ fst (mexFunction nlhs (mxString "read" :: rest) env w)
     = Returned (Some (if 0 <? r
                       then mxDoubleMatrix 1 5 (decode (overlay received zero_buffer))
                       else empty_matrix)).
Proof.
  intros Hd Hnn Hread received.
  pose proof (poll_with_device env (globals w) zero_buffer _ d r data Hd Hnn Hread)
    as Hpoll.
  split.
  - rewrite readJoystickData_value, Hpoll. reflexivity.
  - rewrite mexFunction_read by reflexivity. cbn [fst].
    unfold read_output. rewrite Hpoll. reflexivity.
Qed.

Lemma C1_read_decides_by_sign_witness :
  session_device short_report_env (globals initial_world) = 7
  /\ fst (mexFunction 0 [mxString "read"; mxDoubleMatrix 1 1 [20]]
                      short_report_env initial_world)
     = Returned (Some (mxDoubleMatrix 1 5 [1; 2; 3; 0; 0])).
Proof.
  split; [reflexivity|].
  exact (proj2 (C1_read_decides_by_sign short_report_env initial_world 0
                  [mxDoubleMatrix 1 1 [20]] 7 3 [x01; x02; x03]
                  eq_refl ltac:(discriminate) eq_refl)).
Defined.

(** C2: a read that delivers the five bytes 81 7F 00 01 FF returns the row
    -127, 127, 0, 1, 255; in general bytes 0 to 2 are read as two's
    complement (same residue modulo 256, range -128..127) and bytes 3 and 4
    as unsigned (range 0..255). *)
Theorem C2_decoding_correct env w nlhs rest d more :
  session_device env (globals w) = d -> d <> nullptr ->
  env_hid_read_timeout env d REPORT_SIZE (read_timeout env rest)
  = (5, (sample_report ++ more)%list) ->
  fst (mexFunction nlhs (mxString "read" :: rest) env w)
  = Returned (Some (mxDoubleMatrix 1 5 [-127; 127; 0; 1; 255]))
  /\ (forall b0 b1 b2 b3 b4,
        decode [b0; b1; b2; b3; b4]
        = [int8_of_byte b0; int8_of_byte b1; int8_of_byte b2;
           uint8_of_byte b3; uint8_of_byte b4])
  /\ (forall b, -128 <= int8_of_byte b <= 127
                /\ (int8_of_byte b) mod 256 = uint8_of_byte b
                /\ 0 <= uint8_of_byte b <= 255).
Proof.
  intros Hd Hnn Hread. split; [|split].
  - rewrite mexFunction_read by reflexivity. cbn [fst]. unfold read_output.
    rewrite (poll_with_device env (globals w) zero_buffer _ d 5 _ Hd Hnn Hread).
    reflexivity.
  - reflexivity.
  - intros b. destruct b; vm_compute; repeat split; congruence.
Qed.

(** C2 at a transport that delivers exactly the sample report. *)
Lemma C2_decoding_correct_witness :
  session_device (constant_env 0 7 (5, sample_report) None 0) (globals initial_world) = 7
  /\ fst (mexFunction 1 [mxString "read"]
                      (constant_env 0 7 (5, sample_report) None 0) initial_world)
     = Returned (Some (mxDoubleMatrix 1 5 [-127; 127; 0; 1; 255])).
Proof.
  split; [reflexivity|].
  exact (proj1 (C2_decoding_correct (constant_env 0 7 (5, sample_report) None 0)
                  initial_world 1 [] 7 []
                  eq_refl ltac:(discriminate) eq_refl)).
Defined.

(** C3: on an open device whose three descriptor queries fail (return -1),
    [info] answers connected=true with both identifiers, and leaves
    manufacturer, product and serial_number unset: the fixed texts are
    stored in the branch where the query returned 0, not where it failed. *)
Theorem C3_failed_query_leaves_field_unset :
  fst (mexFunction 1 [mxString "info"] failing_query_env (open_world 7))
  = Returned (Some (mxStruct
       [ ("connected", Some (mxLogicalScalar true));
         ("vendor_id", Some (mxDoubleMatrix 1 1 [0x1313]));
         ("product_id", Some (mxDoubleMatrix 1 1 [0x9000]));
         ("manufacturer", None); ("product", None); ("serial_number", None) ]))
  /\ fst (mexFunction 1 [mxString "info"]
                      (constant_env 0 7 (0, []) None 0) (open_world 7))
     = Returned (Some (mxStruct
       [ ("connected", Some (mxLogicalScalar true));
         ("vendor_id", Some (mxDoubleMatrix 1 1 [0x1313]));
         ("product_id", Some (mxDoubleMatrix 1 1 [0x9000]));
         ("manufacturer", Some (mxString "Thorlabs"));
         ("product", Some (mxString "MJC3 Joystick"));
         ("serial_number", Some (mxString "Unknown")) ])).
Proof. split; reflexivity. Qed.

(** C4, as the specification states it, fails: when no device can be opened
    the record holds connected=false and nothing else; vendor_id and
    product_id are unset. *)
Lemma C4_unopened_info_lacks_ids :
  fst (mexFunction 1 [mxString "info"] no_device_env initial_world)
  = Returned (Some (mxStruct
       [ ("connected", Some (mxLogicalScalar false));
         ("vendor_id", None); ("product_id", None);
         ("manufacturer", None); ("product", None); ("serial_number", None) ]))
  /\ ~ ids_always_present.
Proof.
  split; [reflexivity|].
  intros H. destruct (H no_device_env initial_world 1) as (info & Hi & Hv & _).
  cbv in Hi. injection Hi as <-. discriminate Hv.
Qed.

(** C4 (amended): [info] always returns a record.  When a device is open or
    can be opened, the record has connected=true, vendor_id=0x1313 and
    product_id=0x9000; when none can be opened it has connected=false and
    its five other fields, the two identifiers among them, are unset. *)
Theorem C4_info_identifiers env w nlhs rest :
  exists info,
    fst (mexFunction nlhs (mxString "info" :: rest) env w) = Returned (Some info)
    /\ (session_device env (globals w) <> nullptr ->
        mxGetField info "connected" = Some (mxCreateLogicalScalar true)
        /\ mxGetField info "vendor_id" = Some (mxCreateDoubleScalar 0x1313)
        /\ mxGetField info "product_id" = Some (mxCreateDoubleScalar 0x9000))
    /\ (session_device env (globals w) = nullptr ->
        mxGetField info "connected" = Some (mxCreateLogicalScalar false)
        /\ forall name,
            In name ["vendor_id"; "product_id"; "manufacturer"; "product";
                     "serial_number"] ->
            mxGetField info name = None).
Proof.
  exists (info_output env (globals w)).
  split.
  - rewrite (mexFunction_info env w nlhs (mxString "info" :: rest) eq_refl).
    reflexivity.
  - unfold info_output. split.
    + intros Hnn. apply is_null_false in Hnn. rewrite Hnn. repeat split.
    + intros Hnull. apply is_null_true in Hnull. rewrite Hnull.
      split; [reflexivity|].
      intros name [<-|[<-|[<-|[<-|[<-|[]]]]]]; reflexivity.
Qed.

Lemma C4_info_identifiers_witness :
  exists info,
    fst (mexFunction 1 [mxString "info"] failing_query_env initial_world)
    = Returned (Some info)
    /\ mxGetField info "vendor_id" = Some (mxCreateDoubleScalar 0x1313)
    /\ mxGetField info "product_id" = Some (mxCreateDoubleScalar 0x9000).
Proof.
  destruct (C4_info_identifiers failing_query_env initial_world 1 [])
    as (info & Hi & Hopen & _).
  exists info. split; [exact Hi|].
  exact (proj2 (Hopen ltac:(discriminate))).
Defined.

(** C5: a read that times out (0 bytes), a read that fails in the transport
    (negative return value) and a device that cannot be opened all give the
    caller the same 0-by-0 matrix, as a normal return and not as an error. *)
Theorem C5_nodata_and_error_give_empty env w nlhs rest d r data :
  session_device env (globals w) = d ->
  env_hid_read_timeout env d REPORT_SIZE (read_timeout env rest) = (r, data) ->
  d = nullptr \/ r = 0 \/ r < 0 ->
  fst (mexFunction nlhs (mxString "read" :: rest) env w)
  = Returned (Some empty_matrix).
Proof.
  intros Hd Hread Hcase.
  destruct (Z.eq_dec d nullptr) as [Hnull|Hnn].
  - rewrite mexFunction_read by reflexivity. cbn [fst].
    unfold read_output, poll. rewrite Hd, Hnull. reflexivity.
  - rewrite mexFunction_read by reflexivity. cbn [fst]. unfold read_output.
    rewrite (poll_with_device env (globals w) zero_buffer _ d r data Hd Hnn Hread).
    replace (0 <? r) with false; [reflexivity|].
    symmetry. apply Z.ltb_ge. destruct Hcase as [?|[?|?]]; [contradiction|lia|lia].
Qed.

Lemma C5_nodata_and_error_give_empty_witness :
  fst (mexFunction 1 [mxString "read"]
                   (constant_env 0 7 (0, []) None 0) (open_world 7))
  = Returned (Some empty_matrix)
  /\ fst (mexFunction 1 [mxString "read"]
                      (constant_env 0 7 (-1, []) (Some "unplugged") 0) (open_world 7))
     = Returned (Some empty_matrix).
Proof.
  split.
  - exact (C5_nodata_and_error_give_empty (constant_env 0 7 (0, []) None 0)
             (open_world 7) 1 [] 7 0 [] eq_refl eq_refl
             (or_intror (or_introl eq_refl))).
  - exact (C5_nodata_and_error_give_empty
             (constant_env 0 7 (-1, []) (Some "unplugged") 0)
             (open_world 7) 1 [] 7 (-1) [] eq_refl eq_refl
             (or_intror (or_intror eq_refl))).
Defined.

(** C6: [close] succeeds from every state of the globals, leaves the session
    closed, and a second [close] right after it succeeds again, leaves the
    session closed and makes no further call to the transport. *)
Theorem C6_close_idempotent env1 env2 w nlhs1 nlhs2 rest1 rest2 :
  let first := mexFunction nlhs1 (mxString "close" :: rest1) env1 w in
  let second := mexFunction nlhs2 (mxString "close" :: rest2) env2 (snd first) in
  fst first
  = Returned (if nlhs1 >? 0 then Some (mxCreateLogicalScalar true) else None)
  /\ globals (snd first) = initial_globals
  /\ fst second
     = Returned (if nlhs2 >? 0 then Some (mxCreateLogicalScalar true) else None)
  /\ globals (snd second) = initial_globals
  /\ trace (snd second) = EvAtExit :: trace (snd first)
  /\ (forall env, cleanupDevice env (snd first) = (Returned tt, snd first)).
Proof.
  cbn zeta.
  rewrite (mexFunction_close env1 w nlhs1 (mxString "close" :: rest1) eq_refl).
  cbn [fst snd].
  rewrite (mexFunction_close env2 _ nlhs2 (mxString "close" :: rest2) eq_refl).
  cbn [fst snd globals trace].
  repeat split.
Qed.




(** C8: [g_initialized] is true exactly when [g_device] is not null.  This
    holds of the initial globals and survives every invocation of
    [mexFunction], whatever the arguments and the transport do; the open
    helper sets both on success and ends with both cleared on failure, and
    the close helper clears both. *)
Theorem C8_session_invariant env w nlhs prhs :
  session_inv (globals w) ->
  session_inv initial_globals
  /\ session_inv (globals (snd (mexFunction nlhs prhs env w)))
  /\ session_inv (globals (snd (initializeDevice env w)))
  /\ (fst (initializeDevice env w) = Returned true ->
      g_initialized (globals (snd (initializeDevice env w))) = true
      /\ g_device (globals (snd (initializeDevice env w))) <> nullptr)
  /\ (fst (initializeDevice env w) = Returned false ->
      g_initialized (globals (snd (initializeDevice env w))) = false
      /\ g_device (globals (snd (initializeDevice env w))) = nullptr)
  /\ g_initialized (globals (snd (cleanupDevice env w))) = false
  /\ g_device (globals (snd (cleanupDevice env w))) = nullptr.
Proof.
  intros Hinv.
  destruct (initializeDevice_session env w Hinv) as (Hi & Ht & Hf & _).
  split; [apply initial_globals_inv|].
  split.
  { rewrite mexFunction_globals.
    destruct (option_map classify (command_of prhs)) as [[| | | |]|];
      auto using session_globals_inv, initial_globals_inv. }
  split; [exact Hi|]. split; [exact Ht|].
  split; [intros Hfalse; rewrite (Hf Hfalse); split; reflexivity|].
  rewrite cleanupDevice_run. split; reflexivity.
Qed.

Lemma C8_session_invariant_witness :
  session_inv (globals initial_world)
  /\ session_inv (globals (snd (mexFunction 1 [mxString "read"]
                                 (constant_env 0 7 (5, sample_report) None 0)
                                 initial_world)))
  /\ globals (snd (mexFunction 1 [mxString "read"]
                     (constant_env 0 7 (5, sample_report) None 0) initial_world))
     = mkGlobals 7 true.
Proof.
  split; [apply initial_globals_inv|].
  split; [|reflexivity].
  exact (proj1 (proj2 (C8_session_invariant
                         (constant_env 0 7 (5, sample_report) None 0)
                         initial_world 1 [mxString "read"] initial_globals_inv))).
Defined.

(** C9: when the transport read of a poll returns a negative value, the
    poll reports failure and changes neither global: the handle it read
    from is still in [g_device] (with an already open session both globals
    are exactly as before, and the transport saw a read and an error
    query, no close and no exit), and the next poll starts with a read on
    that same handle. *)
Theorem C9_read_error_keeps_handle env w buffer timeout_ms d r data :
  session_device env (globals w) = d -> d <> nullptr ->
  env_hid_read_timeout env d REPORT_SIZE timeout_ms = (r, data) ->
  r < 0 ->
  let after := snd (readJoystickData buffer timeout_ms env w) in
  fst (readJoystickData buffer timeout_ms env w) = Returned (false, buffer)
  /\ globals after = session_globals env (globals w)
  /\ g_device (globals after) = d
  /\ (g_device (globals w) <> nullptr ->
      globals after = globals w
      /\ trace after
         = ((match env_hid_error env d with
             | Some _ => [EvWarn "MJC3:ReadError" "HID read error occurred"]
             | None => []
             end)
            ++ EvHidError d :: EvHidReadTimeout d REPORT_SIZE timeout_ms :: trace w)%list)
  /\ (forall env' buffer' timeout_ms',
        trace (snd (readJoystickData buffer' timeout_ms' env' after))
        = (read_events env' d timeout_ms' ++ trace after)%list).
Proof.
  intros Hd Hnn Hread Hneg after.
  assert (Hg : globals after = session_globals env (globals w))
    by apply readJoystickData_globals.
  assert (Hdev : g_device (session_globals env (globals w)) = d).
  { revert Hd. unfold session_device, session_globals.
    destruct (is_null (g_device (globals w))); [|auto].
    destruct (env_hid_init env =? 0); [auto|].
    intros <-. contradiction Hnn. reflexivity. }
  split.
  { rewrite readJoystickData_value. unfold poll. rewrite Hd.
    apply is_null_false in Hnn. rewrite Hnn, Hread.
    replace (0 <? r) with false by (symmetry; apply Z.ltb_ge; lia).
    replace (Z.to_nat (Z.min r REPORT_SIZE)) with 0%nat by (unfold REPORT_SIZE; lia).
    reflexivity. }
  split; [exact Hg|]. split; [rewrite Hg; exact Hdev|]. split.
  - intros Hopen. apply is_null_false in Hopen.
    assert (Hsame : g_device (globals w) = d).
    { revert Hd. unfold session_device. rewrite Hopen. auto. }
    subst after. rewrite (readJoystickData_open_run env w buffer timeout_ms Hopen).
    cbn [snd globals trace]. split; [reflexivity|].
    unfold read_events. rewrite Hsame, Hread. cbn [fst].
    replace (r <? 0) with true by (symmetry; apply Z.ltb_lt; lia).
    rewrite <- !app_assoc. reflexivity.
  - intros env' buffer' timeout_ms'.
    assert (Hopen : is_null (g_device (globals after)) = false).
    { rewrite Hg, Hdev. apply is_null_false. exact Hnn. }
    rewrite (readJoystickData_open_run env' after buffer' timeout_ms' Hopen).
    cbn [snd trace]. rewrite Hg, Hdev. reflexivity.
Qed.

Lemma C9_read_error_keeps_handle_witness :
  session_device (constant_env 0 7 (-1, []) (Some "unplugged") 0)
                 (globals (open_world 7)) = 7
  /\ globals (snd (readJoystickData zero_buffer 100
                     (constant_env 0 7 (-1, []) (Some "unplugged") 0) (open_world 7)))
     = mkGlobals 7 true.
Proof.
  split; [reflexivity|].
  exact (proj1 (proj2 (C9_read_error_keeps_handle
                         (constant_env 0 7 (-1, []) (Some "unplugged") 0)
                         (open_world 7) zero_buffer 100 7 (-1) []
                         eq_refl ltac:(discriminate) eq_refl eq_refl))).
Defined.

(** C10: a second argument of [read] that is not numeric is ignored without
    an error: the whole invocation (result, globals, calls to the
    transport) is that of [read] with no second argument, and the timeout
    handed to the poll is 100. *)
Theorem C10_non_numeric_timeout_ignored env w nlhs arg1 rest :
  mxIsNumeric arg1 = false ->
  mexFunction nlhs (mxString "read" :: arg1 :: rest) env w
  = mexFunction nlhs [mxString "read"] env w
  /\ read_timeout env (arg1 :: rest) = 100
  /\ mexFunction nlhs (mxString "read" :: arg1 :: rest) env w
     = (Returned (Some (read_output env (globals w) [])),
        snd (readJoystickData zero_buffer 100 env
               (mkWorld (globals w) (EvAtExit :: trace w)))).
Proof.
  intros Hnum.
  assert (Ht : read_timeout env (arg1 :: rest) = 100).
  { destruct arg1; try reflexivity. discriminate Hnum. }
  assert (Ho : read_output env (globals w) (arg1 :: rest)
               = read_output env (globals w) []).
  { unfold read_output. rewrite Ht. reflexivity. }
  rewrite !mexFunction_read by reflexivity.
  rewrite Ht, Ho. cbn [read_timeout]. repeat split.
Qed.

Lemma C10_non_numeric_timeout_ignored_witness :
  mxIsNumeric (mxString "fast") = false
  /\ mexFunction 1 [mxString "read"; mxString "fast"]
                 (constant_env 0 7 (5, sample_report) None 0) initial_world
     = mexFunction 1 [mxString "read"]
                   (constant_env 0 7 (5, sample_report) None 0) initial_world.
Proof.
  split; [reflexivity|].
  exact (proj1 (C10_non_numeric_timeout_ignored
                  (constant_env 0 7 (5, sample_report) None 0) initial_world 1
                  (mxString "fast") [] eq_refl)).
Defined.

(** * Whole invocations: results, globals and traces *)

Lemma readJoystickData_run env w buffer timeout_ms :
  readJoystickData buffer timeout_ms env w
  = (Returned (poll env (globals w) buffer timeout_ms),
     mkWorld (session_globals env (globals w))
             (poll_events env (globals w) timeout_ms ++ trace w)%list).
Proof.
  destruct (is_null (g_device (globals w))) eqn:Hd.
  - unfold readJoystickData, poll, poll_events, open_events, session_device,
      session_globals, read_events, initializeDevice.
    mex_unfold. rewrite !Hd. cbn. rewrite Bool.andb_false_r.
    destruct (env_hid_init env =? 0); cbn; [|reflexivity].
    destruct (is_null (env_hid_open env MJC3_VID MJC3_PID)) eqn:Ho; cbn;
      [reflexivity|].
    destruct (env_hid_read_timeout env _ REPORT_SIZE timeout_ms) as [r data]; cbn.
    destruct (r <? 0) eqn:Hneg; cbn.
    + apply Z.ltb_lt in Hneg.
      replace (0 <? r) with false by (symmetry; apply Z.ltb_ge; lia).
      destruct (env_hid_error env _); reflexivity.
    + apply Z.ltb_ge in Hneg. destruct (r =? 0) eqn:Hz; cbn.
      * apply Z.eqb_eq in Hz; subst r; reflexivity.
      * apply Z.eqb_neq in Hz.
        replace (0 <? r) with true by (symmetry; apply Z.ltb_lt; lia).
        reflexivity.
  - rewrite (readJoystickData_open_run env w buffer timeout_ms Hd).
    unfold poll_events, open_events, session_device, session_globals.
    rewrite !Hd. rewrite app_nil_r. reflexivity.
Qed.

Lemma getDeviceInfo_run env w :
  getDeviceInfo env w
  = (Returned (info_output env (globals w)),
     mkWorld (session_globals env (globals w))
             (info_events env (globals w) ++ trace w)%list).
Proof.
  unfold getDeviceInfo, info_output, info_events, open_events, session_device,
    session_globals, initializeDevice, descriptor_field.
  mex_unfold.
  destruct (is_null (g_device (globals w))) eqn:Hd; cbn.
  - rewrite ?Hd. cbn. rewrite Bool.andb_false_r.
    destruct (env_hid_init env =? 0); cbn; [|reflexivity].
    destruct (is_null (env_hid_open env MJC3_VID MJC3_PID)); cbn; [reflexivity|].
    destruct (env_hid_get_manufacturer_string env _ =? 0);
      destruct (env_hid_get_product_string env _ =? 0);
      destruct (env_hid_get_serial_number_string env _ =? 0); reflexivity.
  - rewrite Hd.
    destruct (env_hid_get_manufacturer_string env _ =? 0);
      destruct (env_hid_get_product_string env _ =? 0);
      destruct (env_hid_get_serial_number_string env _ =? 0); reflexivity.
Qed.

(** Every invocation: the trace grows by [mexAtExit] and the calls of the
    command. *)
Lemma mexFunction_trace env w nlhs prhs :
  trace (snd (mexFunction nlhs prhs env w))
  = (command_events env (globals w) prhs ++ EvAtExit :: trace w)%list.
Proof.
  unfold command_events.
  destruct (command_of prhs) as [c|] eqn:Hcmd; cbn [option_map].
  - pose proof (classify_cases c) as Hk.
    destruct (classify c) eqn:Hcl; try subst c.
    + destruct (command_of_cons _ _ Hcmd) as (a & r & -> & _).
      rewrite mexFunction_read by assumption. cbn [snd tl].
      rewrite readJoystickData_run. reflexivity.
    + rewrite mexFunction_info by assumption. cbn [snd].
      rewrite getDeviceInfo_run. reflexivity.
    + rewrite mexFunction_test by assumption. reflexivity.
    + rewrite mexFunction_close by assumption. reflexivity.
    + rewrite (mexFunction_unknown _ _ _ _ _ Hcmd Hcl). reflexivity.
  - destruct (mexFunction_no_command env w nlhs prhs Hcmd) as [msg ->]. reflexivity.
Qed.

Lemma count_events_app (p : Event -> bool) (a b : list Event) :
  count_events p (a ++ b) = (count_events p a + count_events p b)%nat.
Proof. unfold count_events. rewrite filter_app, length_app. reflexivity. Qed.

(** A poll on an open handle makes one read and no call that opens or
    releases anything. *)
Lemma read_events_counts env d timeout_ms :
  count_events is_read (read_events env d timeout_ms) = 1%nat
  /\ count_events is_opened (read_events env d timeout_ms) = 0%nat
  /\ count_events is_close (read_events env d timeout_ms) = 0%nat
  /\ count_events is_init (read_events env d timeout_ms) = 0%nat
  /\ count_events is_exit (read_events env d timeout_ms) = 0%nat
  /\ count_events is_init_failure (read_events env d timeout_ms) = 0%nat
  /\ existsb lifecycle_event (read_events env d timeout_ms) = false.
Proof.
  unfold read_events.
  destruct (fst (env_hid_read_timeout env d REPORT_SIZE timeout_ms) <? 0);
    [destruct (env_hid_error env d)|]; cbn; repeat split.
Qed.

(** The result and the globals of an invocation depend on the world only
    through the globals. *)
Lemma mexFunction_value_globals env nlhs prhs w1 w2 :
  globals w1 = globals w2 ->
  fst (mexFunction nlhs prhs env w1) = fst (mexFunction nlhs prhs env w2)
  /\ globals (snd (mexFunction nlhs prhs env w1))
     = globals (snd (mexFunction nlhs prhs env w2)).
Proof.
  intros Hg. split; [|rewrite !mexFunction_globals, Hg; reflexivity].
  destruct (command_of prhs) as [c|] eqn:Hcmd.
  - pose proof (classify_cases c) as Hk.
    destruct (classify c) eqn:Hcl; try subst c.
    + destruct (command_of_cons _ _ Hcmd) as (a & r & -> & _).
      rewrite !mexFunction_read by assumption. cbn [fst]. rewrite Hg. reflexivity.
    + rewrite !mexFunction_info by assumption. cbn [fst]. rewrite Hg. reflexivity.
    + rewrite !mexFunction_test by assumption. reflexivity.
    + rewrite !mexFunction_close by assumption. reflexivity.
    + rewrite !(mexFunction_unknown _ _ _ _ _ Hcmd Hcl). reflexivity.
  - destruct prhs as [|arg0 rest]; [reflexivity|].
    cbn [command_of] in Hcmd. destruct (mxIsChar arg0) eqn:Hc; [discriminate|].
    unfold mexFunction. unfold bind at 1. unfold bind at 2.
    cbn [mexAtExit emit fst snd]. rewrite Hc. reflexivity.
Qed.

Lemma session_open_device env g d :
  env_hid_init env = 0 -> env_hid_open env MJC3_VID MJC3_PID = d -> d <> nullptr ->
  g_device g = nullptr ->
  session_device env g = d
  /\ session_globals env g = mkGlobals d true
  /\ open_events env g
     = [EvHidSetNonblocking d 1; EvHidOpen MJC3_VID MJC3_PID; EvHidInit].
Proof.
  intros Hi Ho Hnn Hd. unfold session_device, session_globals, open_events.
  rewrite Hd, Hi, Ho. change (is_null nullptr) with true. cbn [Z.eqb].
  apply is_null_false in Hnn. rewrite Hnn. repeat split.
Qed.

(** * Further properties of the gateway *)

(** X1: lazy open.  With no handle yet, a transport whose [hid_init]
    succeeds and whose [hid_open] answers a handle [d] makes [read] and
    [info] open the device by its vendor and product ids, switch it to
    non-blocking mode and go on with [d]; both globals are set afterwards. *)
Theorem X1_lazy_open env w nlhs rest d :
  g_device (globals w) = nullptr ->
  env_hid_init env = 0 ->
  env_hid_open env MJC3_VID MJC3_PID = d ->
  d <> nullptr ->
  let after_read := snd (mexFunction nlhs (mxString "read" :: rest) env w) in
  let after_info := snd (mexFunction nlhs (mxString "info" :: rest) env w) in
  globals after_read = mkGlobals d true
  /\ trace after_read
     = (read_events env d (read_timeout env rest)
        ++ [EvHidSetNonblocking d 1; EvHidOpen 0x1313 0x9000; EvHidInit; EvAtExit]
        ++ trace w)%list
  /\ globals after_info = mkGlobals d true
  /\ trace after_info
     = ([EvHidGetSerial d; EvHidGetProduct d; EvHidGetManufacturer d;
         EvHidSetNonblocking d 1; EvHidOpen 0x1313 0x9000; EvHidInit; EvAtExit]
        ++ trace w)%list.
Proof.
  intros Hd Hi Ho Hnn after_read after_info. subst after_read after_info.
  destruct (session_open_device env (globals w) d Hi Ho Hnn Hd) as (Hs & Hg & He).
  pose proof Hnn as Hnull. apply is_null_false in Hnull.
  rewrite !mexFunction_globals, !mexFunction_trace. cbn [command_of mxIsChar mxGetString
    option_map]. unfold command_events. cbn [command_of mxIsChar mxGetString option_map tl].
  change (classify (c_str (substring 0 (64 - 1) "read"))) with CmdRead.
  change (classify (c_str (substring 0 (64 - 1) "info"))) with CmdInfo.
  cbv beta iota. unfold poll_events, info_events. rewrite Hs, Hg, He, Hnull.
  repeat split. rewrite <- app_assoc. reflexivity.
Qed.

Lemma X1_lazy_open_witness :
  globals (snd (mexFunction 1 [mxString "read"]
                  (constant_env 0 7 (5, sample_report) None 0) initial_world))
  = mkGlobals 7 true
  /\ trace (snd (mexFunction 1 [mxString "read"]
                   (constant_env 0 7 (5, sample_report) None 0) initial_world))
     = [EvHidReadTimeout 7 5 100; EvHidSetNonblocking 7 1; EvHidOpen 0x1313 0x9000;
        EvHidInit; EvAtExit].
Proof.
  pose proof (X1_lazy_open (constant_env 0 7 (5, sample_report) None 0)
                initial_world 1 [] 7 eq_refl eq_refl eq_refl ltac:(discriminate))
    as H.
  split; [exact (proj1 H) | exact (proj1 (proj2 H))].
Defined.

Lemma command_read rest : command_of (mxString "read" :: rest) = Some "read".
Proof. reflexivity. Qed.

Lemma command_events_read env g rest :
  command_events env g (mxString "read" :: rest)
  = poll_events env g (read_timeout env rest).
Proof. reflexivity. Qed.

(** X2: a failed open is clean and can be retried.  When [read] finds no
    handle and the transport cannot provide one, the caller gets the empty
    matrix; [hid_open] is not attempted after a failed [hid_init], and a
    successful [hid_init] whose [hid_open] fails is undone by [hid_exit];
    both globals are cleared, so that the next invocation answers exactly
    as the first one of a fresh process would. *)
Theorem X2_failed_open_is_clean env w nlhs rest :
  g_device (globals w) = nullptr ->
  g_initialized (globals w) = false ->
  session_device env (globals w) = nullptr ->
  let first := mexFunction nlhs (mxString "read" :: rest) env w in
  fst first = Returned (Some empty_matrix)
  /\ globals (snd first) = initial_globals
  /\ trace (snd first)
     = ((if env_hid_init env =? 0
         then [ EvHidExit;
                EvWarn "MJC3:OpenFail" "Cannot open MJC3 joystick (VID:1313, PID:9000)";
                EvHidOpen 0x1313 0x9000; EvHidInit ]
         else [ EvWarn "MJC3:InitFail" "Failed to initialize HID library"; EvHidInit ])
        ++ EvAtExit :: trace w)%list
  /\ (forall env' nlhs' prhs',
        fst (mexFunction nlhs' prhs' env' (snd first))
        = fst (mexFunction nlhs' prhs' env' initial_world)).
Proof.
  intros Hd Hi Hs first. subst first.
  assert (Hg : globals (snd (mexFunction nlhs (mxString "read" :: rest) env w))
               = initial_globals).
  { rewrite mexFunction_globals. cbn [command_of mxIsChar option_map].
    change (classify _) with CmdRead. cbv beta iota.
    revert Hs. unfold session_device, session_globals. rewrite Hd.
    change (is_null nullptr) with true. cbv beta iota.
    destruct (env_hid_init env =? 0).
    - intros ->. change (is_null nullptr) with true. cbv beta iota zeta.
      rewrite Hi. reflexivity.
    - intros _. destruct (globals w) as [d i]. cbn in Hd, Hi. subst. reflexivity. }
  split; [|split; [exact Hg|split]].
  - rewrite mexFunction_read by reflexivity. cbn [fst].
    unfold read_output, poll. rewrite Hs. reflexivity.
  - rewrite mexFunction_trace, command_events_read.
    unfold poll_events. rewrite Hs. change (is_null nullptr) with true.
    cbn [app]. f_equal. revert Hs. unfold session_device, open_events.
    rewrite Hd. change (is_null nullptr) with true. cbv beta iota.
    destruct (env_hid_init env =? 0); [|reflexivity].
    intros ->. reflexivity.
  - intros env' nlhs' prhs'.
    apply (mexFunction_value_globals env' nlhs' prhs'). exact Hg.
Qed.

Lemma X2_failed_open_is_clean_witness :
  fst (mexFunction 1 [mxString "read"] no_device_env initial_world)
  = Returned (Some empty_matrix)
  /\ globals (snd (mexFunction 1 [mxString "read"] no_device_env initial_world))
     = initial_globals.
Proof.
  pose proof (X2_failed_open_is_clean no_device_env initial_world 1 []
                eq_refl eq_refl eq_refl) as H.
  split; [exact (proj1 H) | exact (proj1 (proj2 H))].
Defined.

(** X3: reopen after close.  Whatever the state before [close], every
    invocation after it, with any arguments and any transport, answers and
    leaves the globals as the same invocation in a fresh process does; and
    with a transport that provides a handle [d], a [read] or an [info]
    after [close] opens the device again. *)
Theorem X3_reopen_after_close env0 env w nlhs0 nlhs rest0 prhs :
  let closed := snd (mexFunction nlhs0 (mxString "close" :: rest0) env0 w) in
  fst (mexFunction nlhs prhs env closed)
  = fst (mexFunction nlhs prhs env initial_world)
  /\ globals (snd (mexFunction nlhs prhs env closed))
     = globals (snd (mexFunction nlhs prhs env initial_world))
  /\ (forall d,
        env_hid_init env = 0 ->
        env_hid_open env MJC3_VID MJC3_PID = d ->
        d <> nullptr ->
        command_of prhs = Some "read" \/ command_of prhs = Some "info" ->
        globals (snd (mexFunction nlhs prhs env closed)) = mkGlobals d true
        /\ exists evs,
            trace (snd (mexFunction nlhs prhs env closed))
            = (evs ++ [EvHidSetNonblocking d 1; EvHidOpen 0x1313 0x9000;
                       EvHidInit; EvAtExit]
                   ++ trace closed)%list).
Proof.
  intros closed.
  assert (Hg : globals closed = initial_globals).
  { subst closed.
    rewrite (mexFunction_close env0 w nlhs0 (mxString "close" :: rest0) eq_refl).
    reflexivity. }
  split; [apply (mexFunction_value_globals env nlhs prhs); exact Hg|].
  split; [apply (mexFunction_value_globals env nlhs prhs); exact Hg|].
  intros d Hi Ho Hnn Hcmd.
  destruct (session_open_device env (globals closed) d Hi Ho Hnn
              ltac:(rewrite Hg; reflexivity)) as (Hs & Hsg & He).
  pose proof Hnn as Hnull. apply is_null_false in Hnull.
  rewrite mexFunction_globals, mexFunction_trace. unfold command_events.
  destruct Hcmd as [-> | ->]; cbn [option_map];
    [change (classify "read") with CmdRead | change (classify "info") with CmdInfo];
    cbv beta iota; (split; [exact Hsg|]).
  - unfold poll_events. rewrite Hs, He, Hnull.
    eexists. rewrite <- app_assoc. reflexivity.
  - unfold info_events. rewrite Hs, He, Hnull.
    exists [EvHidGetSerial d; EvHidGetProduct d; EvHidGetManufacturer d]. reflexivity.
Qed.

Lemma X3_reopen_after_close_witness :
  fst (mexFunction 1 [mxString "bogus"] no_device_env
         (snd (mexFunction 0 [mxString "close"] no_device_env (open_world 7))))
  = fst (mexFunction 1 [mxString "bogus"] no_device_env initial_world)
  /\ globals (snd (mexFunction 1 [mxString "read"]
                     (constant_env 0 9 (5, sample_report) None 0)
                     (snd (mexFunction 0 [mxString "close"] no_device_env
                                       (open_world 7)))))
     = mkGlobals 9 true.
Proof.
  split.
  - exact (proj1 (X3_reopen_after_close no_device_env no_device_env
                    (open_world 7) 0 1 [] [mxString "bogus"])).
  - exact (proj1 (proj2 (proj2 (X3_reopen_after_close no_device_env
                                  (constant_env 0 9 (5, sample_report) None 0)
                                  (open_world 7) 0 1 [] [mxString "read"]))
                    9 eq_refl eq_refl ltac:(discriminate) (or_introl eq_refl))).
Defined.

(** X4: only [close] releases the device.  On an open session every other
    invocation, valid or not, leaves both globals as they are and makes no
    call to [hid_init], [hid_open], [hid_set_nonblocking], [hid_close] or
    [hid_exit]. *)
Theorem X4_open_session_is_kept env w nlhs prhs :
  g_device (globals w) <> nullptr ->
  command_of prhs <> Some "close" ->
  globals (snd (mexFunction nlhs prhs env w)) = globals w
  /\ exists evs,
      trace (snd (mexFunction nlhs prhs env w)) = (evs ++ EvAtExit :: trace w)%list
      /\ existsb lifecycle_event evs = false.
Proof.
  intros Hopen Hcmd. apply is_null_false in Hopen.
  assert (Hs : session_device env (globals w) = g_device (globals w))
    by (unfold session_device; rewrite Hopen; reflexivity).
  assert (Hg : session_globals env (globals w) = globals w)
    by (unfold session_globals; rewrite Hopen; reflexivity).
  assert (He : open_events env (globals w) = [])
    by (unfold open_events; rewrite Hopen; reflexivity).
  rewrite mexFunction_globals, mexFunction_trace. unfold command_events.
  destruct (command_of prhs) as [c|]; cbn [option_map];
    [|split; [reflexivity | exists []; split; reflexivity]].
  pose proof (classify_cases c) as Hk.
  destruct (classify c); try subst c.
  - split; [exact Hg|]. unfold poll_events. rewrite Hs, He, Hopen, app_nil_r.
    eexists. split; [reflexivity|]. apply read_events_counts.
  - split; [exact Hg|]. unfold info_events. rewrite Hs, He, Hopen.
    eexists. split; reflexivity.
  - split; [reflexivity | exists []; split; reflexivity].
  - contradiction Hcmd. reflexivity.
  - split; [reflexivity | exists []; split; reflexivity].
Qed.

Lemma X4_open_session_is_kept_witness :
  globals (snd (mexFunction 1 [mxString "info"] failing_query_env (open_world 7)))
  = globals (open_world 7).
Proof.
  exact (proj1 (X4_open_session_is_kept failing_query_env (open_world 7) 1
                  [mxString "info"] ltac:(discriminate) ltac:(discriminate))).
Defined.

(** X5: one bounded read per [read], none otherwise.  An invocation adds
    exactly one [hid_read_timeout] to the trace when its command is read
    and a handle is at hand, and none in every other case: no retry loop,
    and [info], [test], [close] and rejected calls never read a report. *)
Theorem X5_one_read_per_poll env w nlhs prhs :
  count_events is_read (trace (snd (mexFunction nlhs prhs env w)))
  = (count_events is_read (trace w)
     + match option_map classify (command_of prhs) with
       | Some CmdRead => if is_null (session_device env (globals w)) then 0 else 1
       | _ => 0
       end)%nat.
Proof.
  rewrite mexFunction_trace, count_events_app. unfold command_events.
  change (count_events is_read (EvAtExit :: trace w))
    with (count_events is_read (trace w)).
  assert (Hopen : count_events is_read (open_events env (globals w)) = 0%nat).
  { unfold open_events.
    destruct (is_null (g_device (globals w))); [|reflexivity].
    destruct (env_hid_init env =? 0); [|reflexivity].
    destruct (is_null (env_hid_open env MJC3_VID MJC3_PID)); reflexivity. }
  destruct (option_map classify (command_of prhs)) as [[| | | |]|];
    try (change (count_events is_read []) with 0%nat; lia).
  - unfold poll_events. rewrite count_events_app, Hopen.
    destruct (is_null (session_device env (globals w)));
      [change (count_events is_read []) with 0%nat; lia|].
    rewrite (proj1 (read_events_counts env _ _)). lia.
  - unfold info_events. rewrite count_events_app, Hopen.
    destruct (is_null (session_device env (globals w))); cbn; lia.
  - unfold cleanup_events. rewrite count_events_app.
    destruct (g_initialized (globals w)); destruct (is_null (g_device (globals w)));
      cbn; lia.
Qed.

(** X6: no validation of the timeout.  A numeric second argument whose
    first element is an integer [v] in the range of [int] reaches
    [hid_read_timeout] as [v], together with the session handle and the
    report size 5; zero and negative values are not rejected and not
    replaced by the default.  (The numeric data of this model are
    integer-valued; a fractional timeout is outside it.) *)
Theorem X6_timeout_passed_through env w nlhs m n v more rest d :
  g_device (globals w) = d -> d <> nullptr ->
  INT_MIN <= v <= INT_MAX ->
  trace (snd (mexFunction nlhs (mxString "read" :: mxDoubleMatrix m n (v :: more) :: rest)
                          env w))
  = (read_events env d v ++ EvAtExit :: trace w)%list
  /\ In (EvHidReadTimeout d 5 v) (read_events env d v).
Proof.
  intros Hd Hnn Hv. apply is_null_false in Hnn.
  split.
  - rewrite mexFunction_trace, command_events_read.
    unfold poll_events, session_device, open_events.
    rewrite Hd, !Hnn, app_nil_r.
    cbn [read_timeout]. unfold int_of_double.
    replace (INT_MIN <=? v) with true by (symmetry; apply Z.leb_le; lia).
    replace (v <=? INT_MAX) with true by (symmetry; apply Z.leb_le; lia).
    reflexivity.
  - unfold read_events. apply in_or_app. right. left. reflexivity.
Qed.

Lemma X6_timeout_passed_through_witness :
  INT_MIN <= -1 <= INT_MAX
  /\ trace (snd (mexFunction 1 [mxString "read"; mxDoubleMatrix 1 1 [-1]]
                   (constant_env 0 7 (0, []) None 0) (open_world 7)))
     = [EvHidReadTimeout 7 5 (-1); EvAtExit].
Proof.
  assert (Hrange : INT_MIN <= -1 <= INT_MAX) by (split; vm_compute; discriminate).
  split; [exact Hrange|].
  pose proof (X6_timeout_passed_through (constant_env 0 7 (0, []) None 0)
                (open_world 7) 1 1%nat 1%nat (-1) [] [] 7
                eq_refl ltac:(discriminate) Hrange) as H.
  exact (proj1 H).
Defined.

(** ** Ranges and injectivity of the two byte conversions *)

Lemma uint8_range (b : byte) : 0 <= uint8_of_byte b <= 255.
Proof.
  unfold uint8_of_byte. pose proof (Byte.to_N_bounded b). lia.
Qed.

Lemma int8_range (b : byte) : -128 <= int8_of_byte b <= 127.
Proof.
  unfold int8_of_byte. pose proof (uint8_range b).
  destruct (uint8_of_byte b <? 128) eqn:E;
    [apply Z.ltb_lt in E | apply Z.ltb_ge in E]; lia.
Qed.

Lemma uint8_inj (a b : byte) : uint8_of_byte a = uint8_of_byte b -> a = b.
Proof.
  unfold uint8_of_byte. intros H. apply N2Z.inj in H.
  pose proof (Byte.of_to_N a) as Ha. rewrite H, Byte.of_to_N in Ha.
  congruence.
Qed.

Lemma int8_inj (a b : byte) : int8_of_byte a = int8_of_byte b -> a = b.
Proof.
  unfold int8_of_byte. pose proof (uint8_range a). pose proof (uint8_range b).
  intros H1. apply uint8_inj.
  destruct (uint8_of_byte a <? 128) eqn:Ea; destruct (uint8_of_byte b <? 128) eqn:Eb;
    try apply Z.ltb_lt in Ea; try apply Z.ltb_ge in Ea;
    try apply Z.ltb_lt in Eb; try apply Z.ltb_ge in Eb; lia.
Qed.

(** X7: [read] never raises.  Whatever the arguments after the command, the
    state and the transport, the invocation returns, and what it returns is
    either the 0-by-0 matrix or a 1-by-5 row whose first three entries lie
    in -128..127 and whose last two lie in 0..255. *)
Theorem X7_read_returns_row_or_empty env w nlhs prhs :
  command_of prhs = Some "read" ->
  exists m,
    fst (mexFunction nlhs prhs env w) = Returned (Some m)
    /\ (m = empty_matrix
        \/ exists x y z button knob,
            m = mxDoubleMatrix 1 5 [x; y; z; button; knob]
            /\ -128 <= x <= 127 /\ -128 <= y <= 127 /\ -128 <= z <= 127
            /\ 0 <= button <= 255 /\ 0 <= knob <= 255).
Proof.
  intros Hcmd. destruct (command_of_cons _ _ Hcmd) as (a & r & -> & _).
  rewrite mexFunction_read by assumption. cbn [fst].
  exists (read_output env (globals w) r). split; [reflexivity|].
  unfold read_output.
  destruct (poll env (globals w) zero_buffer (read_timeout env r)) as [ok buffer].
  destruct ok; [right | left; reflexivity].
  unfold decode. do 5 eexists. split; [reflexivity|].
  repeat split; try apply int8_range; apply uint8_range.
Qed.

Lemma X7_read_returns_row_or_empty_witness :
  exists m,
    fst (mexFunction 1 [mxString "read"; mxCell []] short_report_env initial_world)
    = Returned (Some m)
    /\ (m = empty_matrix
        \/ exists x y z button knob,
            m = mxDoubleMatrix 1 5 [x; y; z; button; knob]
            /\ -128 <= x <= 127 /\ -128 <= y <= 127 /\ -128 <= z <= 127
            /\ 0 <= button <= 255 /\ 0 <= knob <= 255).
Proof.
  exact (X7_read_returns_row_or_empty short_report_env initial_world 1
           [mxString "read"; mxCell []] eq_refl).
Defined.

(** X8: decoding loses nothing.  Two 5-byte reports that decode to the same
    row are the same report. *)
Theorem X8_decode_injective (report1 report2 : list byte) :
  List.length report1 = 5%nat ->
  List.length report2 = 5%nat ->
  decode report1 = decode report2 ->
  report1 = report2.
Proof.
  intros H1 H2.
  destruct report1 as [|a0 [|a1 [|a2 [|a3 [|a4 [|? ?]]]]]]; try discriminate H1.
  destruct report2 as [|b0 [|b1 [|b2 [|b3 [|b4 [|? ?]]]]]]; try discriminate H2.
  unfold decode. cbn [nth]. intros [= E0 E1 E2 E3 E4].
  apply int8_inj in E0, E1, E2. apply uint8_inj in E3, E4.
  subst. reflexivity.
Qed.

Lemma X8_decode_injective_witness :
  List.length sample_report = 5%nat
  /\ decode sample_report = decode [x81; x7f; x00; x01; xff]
  /\ sample_report = [x81; x7f; x00; x01; xff].
Proof.
  split; [reflexivity|]. split; [reflexivity|].
  exact (X8_decode_injective sample_report [x81; x7f; x00; x01; xff]
           eq_refl eq_refl eq_refl).
Defined.

(** ** Bytes of a report that did not arrive *)

Lemma nth_zero_buffer_tail (j k : nat) : nth k (skipn j zero_buffer) x00 = x00.
Proof.
  unfold zero_buffer. change (Z.to_nat REPORT_SIZE) with 5%nat. cbn [repeat].
  do 6 (destruct j as [|j]; cbn [skipn];
        [do 6 (destruct k as [|k]; cbn [nth]; try reflexivity)|]).
  destruct k; reflexivity.
Qed.

Lemma nth_overlay_zero (data : list byte) (i : nat) :
  (List.length data <= i)%nat -> nth i (overlay data zero_buffer) x00 = x00.
Proof.
  intros H. unfold overlay. rewrite app_nth2 by lia. apply nth_zero_buffer_tail.
Qed.

Lemma decode_nth (buffer : list byte) (i : nat) :
  nth i buffer x00 = x00 -> nth i (decode buffer) 0 = 0.
Proof.
  unfold decode.
  do 5 (destruct i as [|i]; [cbn [nth]; intros ->; reflexivity|]).
  intros _. destruct i; reflexivity.
Qed.

(** X9: a short report is padded with zeros.  When the transport delivers
    [r] bytes, 0 < r, the row handed to the caller has 0 at every position
    from [r] on: the fields that did not arrive read as 0, not as stale
    data of an earlier report. *)
Theorem X9_short_report_zero_padded env w nlhs rest d r data i :
  session_device env (globals w) = d -> d <> nullptr ->
  env_hid_read_timeout env d REPORT_SIZE (read_timeout env rest) = (r, data) ->
  0 < r ->
  (Z.to_nat r <= i)%nat ->
  exists row,
    fst (mexFunction nlhs (mxString "read" :: rest) env w)
    = Returned (Some (mxDoubleMatrix 1 5 row))
    /\ nth i row 0 = 0.
Proof.
  intros Hd Hnn Hread Hr Hi.
  rewrite mexFunction_read by reflexivity. cbn [fst]. unfold read_output.
  rewrite (poll_with_device env (globals w) zero_buffer _ d r data Hd Hnn Hread).
  replace (0 <? r) with true by (symmetry; apply Z.ltb_lt; lia).
  eexists. split; [reflexivity|].
  apply decode_nth, nth_overlay_zero.
  rewrite length_firstn. unfold REPORT_SIZE. lia.
Qed.

Lemma X9_short_report_zero_padded_witness :
  exists row,
    fst (mexFunction 1 [mxString "read"] short_report_env initial_world)
    = Returned (Some (mxDoubleMatrix 1 5 row))
    /\ nth 3 row 0 = 0.
Proof.
  exact (X9_short_report_zero_padded short_report_env initial_world 1 [] 7 3
           [x01; x02; x03] 3%nat eq_refl ltac:(discriminate) eq_refl eq_refl
           (le_n 3)).
Defined.

Lemma read_timeout_head env b rest :
  read_timeout env (b :: rest) = read_timeout env [b].
Proof. destruct b as [| ? ? [|? ?] | | |]; reflexivity. Qed.

(** X10: arguments beyond those a command reads are ignored.  Nothing after
    the second argument matters to any invocation, and for every command
    but read nothing after the first one does. *)
Theorem X10_surplus_arguments_ignored env w nlhs a b rest :
  mexFunction nlhs (a :: b :: rest) env w = mexFunction nlhs [a; b] env w
  /\ (command_of [a] <> Some "read" ->
      mexFunction nlhs (a :: rest) env w = mexFunction nlhs [a] env w).
Proof.
  assert (Hsame : forall r1 r2, command_of (a :: r1) = command_of (a :: r2))
    by reflexivity.
  destruct (command_of [a]) as [c|] eqn:Hcmd.
  - pose proof (classify_cases c) as Hk.
    destruct (classify c) eqn:Hcl; try subst c.
    + split; [|intros Hnr; contradiction Hnr; reflexivity].
      rewrite !mexFunction_read by (rewrite <- Hcmd; apply Hsame).
      unfold read_output. rewrite (read_timeout_head env b rest). reflexivity.
    + rewrite !(mexFunction_info env w nlhs) by (rewrite <- Hcmd; apply Hsame).
      split; reflexivity.
    + rewrite !(mexFunction_test env w nlhs) by (rewrite <- Hcmd; apply Hsame).
      split; reflexivity.
    + rewrite !(mexFunction_close env w nlhs) by (rewrite <- Hcmd; apply Hsame).
      split; reflexivity.
    + rewrite (mexFunction_unknown env w nlhs (a :: b :: rest) c
                 ltac:(rewrite <- Hcmd; apply Hsame) Hcl).
      rewrite (mexFunction_unknown env w nlhs [a; b] c
                 ltac:(rewrite <- Hcmd; apply Hsame) Hcl).
      rewrite (mexFunction_unknown env w nlhs (a :: rest) c
                 ltac:(rewrite <- Hcmd; apply Hsame) Hcl).
      rewrite (mexFunction_unknown env w nlhs [a] c Hcmd Hcl).
      split; reflexivity.
  - cbn [command_of] in Hcmd. destruct (mxIsChar a) eqn:Hc; [discriminate|].
    unfold mexFunction. unfold bind. cbn [mexAtExit emit fst snd]. rewrite Hc.
    split; reflexivity.
Qed.

Lemma X10_surplus_arguments_ignored_witness :
  mexFunction 1 [mxString "read"; mxDoubleMatrix 1 1 [0]; mxCell []]
              short_report_env initial_world
  = mexFunction 1 [mxString "read"; mxDoubleMatrix 1 1 [0]]
                short_report_env initial_world
  /\ mexFunction 1 [mxString "info"; mxString "now"; mxCell []] failing_query_env
                 initial_world
     = mexFunction 1 [mxString "info"] failing_query_env initial_world.
Proof.
  split.
  - exact (proj1 (X10_surplus_arguments_ignored short_report_env initial_world 1
                    (mxString "read") (mxDoubleMatrix 1 1 [0]) [mxCell []])).
  - exact (proj2 (X10_surplus_arguments_ignored failing_query_env initial_world 1
                    (mxString "info") (mxString "now")
                    [mxString "now"; mxCell []])
                 ltac:(discriminate)).
Defined.

(** X11: [test] never touches the device.  In every state, with any further
    arguments, it returns logical true, leaves both globals as they are and
    makes no call to the transport; in particular it does not open a
    closed session. *)
Theorem X11_test_touches_nothing env w nlhs prhs :
  command_of prhs = Some "test" ->
  fst (mexFunction nlhs prhs env w) = Returned (Some (mxLogicalScalar true))
  /\ globals (snd (mexFunction nlhs prhs env w)) = globals w
  /\ trace (snd (mexFunction nlhs prhs env w)) = EvAtExit :: trace w.
Proof.
  intros Hcmd. rewrite (mexFunction_test env w nlhs prhs Hcmd). repeat split.
Qed.

Lemma X11_test_touches_nothing_witness :
  fst (mexFunction 0 [mxString "test"; mxCell []] no_device_env initial_world)
  = Returned (Some (mxLogicalScalar true))
  /\ globals (snd (mexFunction 0 [mxString "test"; mxCell []] no_device_env
                               initial_world))
     = initial_globals.
Proof.
  pose proof (X11_test_touches_nothing no_device_env initial_world 0
                [mxString "test"; mxCell []] eq_refl) as H.
  split; [exact (proj1 H) | exact (proj1 (proj2 H))].
Defined.

(** X12: [close] on an open session closes the handle held in [g_device]
    and then shuts the library down, in this order and once each. *)
Theorem X12_close_releases_in_order env w nlhs rest d :
  session_inv (globals w) ->
  g_device (globals w) = d -> d <> nullptr ->
  trace (snd (mexFunction nlhs (mxString "close" :: rest) env w))
  = EvHidExit :: EvHidClose d :: EvAtExit :: trace w.
Proof.
  intros Hinv Hd Hnn.
  rewrite (mexFunction_close env w nlhs (mxString "close" :: rest) eq_refl).
  cbn [snd trace]. unfold cleanup_events.
  assert (Hi : g_initialized (globals w) = true)
    by (apply Hinv; rewrite Hd; exact Hnn).
  apply is_null_false in Hnn. rewrite Hi, Hd, Hnn. reflexivity.
Qed.

Lemma X12_close_releases_in_order_witness :
  session_inv (globals (open_world 7))
  /\ trace (snd (mexFunction 0 [mxString "close"] no_device_env (open_world 7)))
     = [EvHidExit; EvHidClose 7; EvAtExit].
Proof.
  assert (Hinv : session_inv (globals (open_world 7))).
  { split; [intros _; discriminate | reflexivity]. }
  split; [exact Hinv|].
  exact (X12_close_releases_in_order no_device_env (open_world 7) 0 [] 7
           Hinv eq_refl ltac:(discriminate)).
Defined.

(** ** Sequences of invocations *)

Lemma count_events_atexit (p : Event -> bool) (tr : list Event) :
  p EvAtExit = false ->
  count_events p (EvAtExit :: tr) = count_events p tr.
Proof. unfold count_events. cbn [filter]. intros ->. reflexivity. Qed.

Ltac count_now :=
  cbn [g_device g_initialized] in *;
  change (is_null nullptr) with true in *;
  repeat match goal with
         | H : is_null _ = _ |- _ => rewrite !H
         end;
  unfold count_events in *;
  rewrite ?filter_app, ?length_app;
  repeat match goal with
         | H : List.length (filter _ (read_events _ _ _)) = _ |- _ => rewrite !H
         end;
  cbn [app filter List.length is_opened is_close is_init is_exit is_init_failure
       String.eqb Ascii.eqb Bool.eqb];
  split; lia.

Lemma mexFunction_balanced env w nlhs prhs :
  session_inv (globals w) -> balanced w ->
  balanced (snd (mexFunction nlhs prhs env w)).
Proof.
  intros Hinv [Hh Hl]. unfold balanced.
  rewrite mexFunction_trace, mexFunction_globals, !count_events_app.
  rewrite !count_events_atexit by reflexivity.
  unfold command_events.
  destruct (globals w) as [d i] eqn:Hg. unfold session_inv in Hinv.
  cbn [g_device g_initialized] in Hinv, Hh, Hl.
  assert (Hdi : is_null d = negb i).
  { destruct i; cbn [negb].
    - apply is_null_false, Hinv. reflexivity.
    - apply is_null_true. destruct (Z.eq_dec d nullptr) as [E|E]; [exact E|].
      apply Hinv in E. discriminate E. }
  clear Hinv. rewrite Hdi in Hh.
  destruct (option_map classify (command_of prhs)) as [[| | | |]|];
    try count_now.
  - (* read *)
    unfold poll_events, session_device, session_globals, open_events.
    cbn [g_device g_initialized].
    destruct i; cbn [negb] in Hdi, Hh; rewrite ?Hdi.
    + destruct (read_events_counts env d (read_timeout env (tl prhs)))
        as (_ & R1 & R2 & R3 & R4 & R5 & _).
      count_now.
    + destruct (env_hid_init env =? 0); [|count_now].
      destruct (is_null (env_hid_open env MJC3_VID MJC3_PID)) eqn:Ho;
        cbv zeta; [count_now|].
      destruct (read_events_counts env (env_hid_open env MJC3_VID MJC3_PID)
                  (read_timeout env (tl prhs))) as (_ & R1 & R2 & R3 & R4 & R5 & _).
      count_now.
  - (* info *)
    unfold info_events, session_device, session_globals, open_events.
    cbn [g_device g_initialized].
    destruct i; cbn [negb] in Hdi, Hh; rewrite ?Hdi; [count_now|].
    destruct (env_hid_init env =? 0); [|count_now].
    destruct (is_null (env_hid_open env MJC3_VID MJC3_PID)) eqn:Ho;
      cbv zeta; count_now.
  - (* close *)
    unfold cleanup_events, initial_globals. cbn [g_device g_initialized].
    destruct i; cbn [negb] in Hdi, Hh; rewrite ?Hdi; count_now.
Qed.

Lemma run_session_keeps calls : forall w,
  session_inv (globals w) -> balanced w ->
  session_inv (globals (run_session calls w)) /\ balanced (run_session calls w).
Proof.
  induction calls as [|c calls IH]; intros w Hinv Hbal; cbn [run_session].
  - split; assumption.
  - apply IH.
    + rewrite mexFunction_globals.
      destruct (option_map classify (command_of (inv_prhs c))) as [[| | | |]|];
        auto using session_globals_inv, initial_globals_inv.
    + apply mexFunction_balanced; assumption.
Qed.

Lemma initial_world_balanced : balanced initial_world.
Proof. split; reflexivity. Qed.

(** X13: across any sequence of invocations from process start, with any
    arguments and any behaviour of the transport, the session invariant
    holds and the books balance: the handles opened are the handles closed
    plus the one held in [g_device], and the calls to [hid_init] are those
    that failed, those undone by [hid_exit], and the one [g_initialized]
    stands for.  So no handle is opened over a live one and none is
    closed twice. *)
Theorem X13_sessions_stay_balanced (calls : list Invocation) :
  let w := run_session calls initial_world in
  session_inv (globals w)
  /\ count_events is_opened (trace w)
     = (count_events is_close (trace w)
        + (if is_null (g_device (globals w)) then 0 else 1))%nat
  /\ count_events is_init (trace w)
     = (count_events is_exit (trace w)
        + count_events is_init_failure (trace w)
        + (if g_initialized (globals w) then 1 else 0))%nat.
Proof.
  cbv zeta.
  destruct (run_session_keeps calls initial_world initial_globals_inv
              initial_world_balanced) as (Hinv & Hh & Hl).
  repeat split; try apply Hinv; assumption.
Qed.

(** X14: nothing leaks at exit.  After any sequence of invocations, the
    [cleanupDevice] registered with [mexAtExit] leaves both globals
    cleared, every opened handle closed and every successful [hid_init]
    matched by a [hid_exit]. *)
Theorem X14_exit_hook_releases_everything (calls : list Invocation) (env : Env) :
  let w := snd (cleanupDevice env (run_session calls initial_world)) in
  globals w = initial_globals
  /\ count_events is_opened (trace w) = count_events is_close (trace w)
  /\ count_events is_init (trace w)
     = (count_events is_exit (trace w) + count_events is_init_failure (trace w))%nat.
Proof.
  cbv zeta.
  destruct (run_session_keeps calls initial_world initial_globals_inv
              initial_world_balanced) as (Hinv & Hh & Hl).
  rewrite cleanupDevice_run. cbn [snd globals trace].
  split; [reflexivity|].
  rewrite !count_events_app. unfold cleanup_events.
  rewrite !count_events_app.
  destruct (g_initialized (globals (run_session calls initial_world)));
    destruct (is_null (g_device (globals (run_session calls initial_world))));
    cbn [count_events filter is_opened is_close is_init is_exit is_init_failure
         List.length app] in *; split; lia.
Qed.

(** X15: the handle persists between calls.  Once a [read] or an [info]
    has had a handle [d] at hand, [g_device] holds [d], and the next [read]
    goes to [d] at once: it does not initialise or open anything, whatever
    the transport would answer to that, and its result is decided by the
    read on [d] alone. *)
Theorem X15_handle_persists env1 env2 w nlhs1 nlhs2 prhs1 rest2 d :
  session_device env1 (globals w) = d -> d <> nullptr ->
  command_of prhs1 = Some "read" \/ command_of prhs1 = Some "info" ->
  let w1 := snd (mexFunction nlhs1 prhs1 env1 w) in
  let second := mexFunction nlhs2 (mxString "read" :: rest2) env2 w1 in
  g_device (globals w1) = d
  /\ trace (snd second)
     = (read_events env2 d (read_timeout env2 rest2) ++ EvAtExit :: trace w1)%list
  /\ fst second
     = Returned (Some
         (let '(r, data) :=
            env_hid_read_timeout env2 d REPORT_SIZE (read_timeout env2 rest2) in
          if 0 <? r
          then mxDoubleMatrix 1 5
                 (decode (overlay (firstn (Z.to_nat (Z.min r REPORT_SIZE)) data)
                                  zero_buffer))
          else empty_matrix)).
Proof.
  intros Hs Hnn Hcmd w1 second.
  assert (Hd : g_device (globals w1) = d).
  { subst w1. rewrite mexFunction_globals.
    assert (Hg : g_device (session_globals env1 (globals w)) = d).
    { revert Hs. unfold session_device, session_globals.
      destruct (is_null (g_device (globals w))); [|auto].
      destruct (env_hid_init env1 =? 0); [auto|].
      intros <-. contradiction Hnn. reflexivity. }
    destruct Hcmd as [-> | ->]; exact Hg. }
  pose proof Hnn as Hnull. apply is_null_false in Hnull.
  assert (Hs2 : session_device env2 (globals w1) = d)
    by (unfold session_device; rewrite Hd, Hnull; reflexivity).
  split; [exact Hd|]. subst second. split.
  - rewrite mexFunction_trace, command_events_read.
    unfold poll_events, open_events. rewrite Hs2, Hd, Hnull, app_nil_r.
    reflexivity.
  - rewrite mexFunction_read by reflexivity. cbn [fst]. unfold read_output.
    destruct (env_hid_read_timeout env2 d REPORT_SIZE (read_timeout env2 rest2))
      as [r data] eqn:Hread.
    rewrite (poll_with_device env2 (globals w1) zero_buffer _ d r data Hs2 Hnn Hread).
    reflexivity.
Qed.

Lemma X15_handle_persists_witness :
  g_device (globals (snd (mexFunction 1 [mxString "info"] failing_query_env
                                      initial_world))) = 7
  /\ fst (mexFunction 1 [mxString "read"] (constant_env 1 0 (5, sample_report) None 0)
            (snd (mexFunction 1 [mxString "info"] failing_query_env initial_world)))
     = Returned (Some (mxDoubleMatrix 1 5 [-127; 127; 0; 1; 255])).
Proof.
  pose proof (X15_handle_persists failing_query_env
                (constant_env 1 0 (5, sample_report) None 0) initial_world 1 1
                [mxString "info"] [] 7 eq_refl ltac:(discriminate)
                (or_intror eq_refl)) as H.
  split; [exact (proj1 H) | exact (proj2 (proj2 H))].
Defined.

(** X16: a rejected invocation does nothing to the device.  A call without
    arguments, with a first argument that is not a char array, or with an
    unknown command makes no call to the transport, in any state: it only
    registers the exit hook and raises. *)
Theorem X16_rejected_call_makes_no_transport_call env w nlhs prhs :
  (forall c, command_of prhs = Some c -> ~ In c valid_commands) ->
  trace (snd (mexFunction nlhs prhs env w)) = EvAtExit :: trace w.
Proof.
  intros Hbad. rewrite mexFunction_trace. unfold command_events.
  destruct (command_of prhs) as [c|]; [|reflexivity].
  cbn [option_map].
  replace (classify c) with CmdUnknown
    by (symmetry; apply classify_unknown, Hbad, eq_refl).
  reflexivity.
Qed.

Lemma X16_rejected_call_makes_no_transport_call_witness :
  (forall c, command_of [mxDoubleMatrix 1 1 [1]] = Some c -> ~ In c valid_commands)
  /\ trace (snd (mexFunction 1 [mxDoubleMatrix 1 1 [1]]
                   (constant_env 0 7 (5, sample_report) None 0) initial_world))
     = [EvAtExit].
Proof.
  assert (H : forall c, command_of [mxDoubleMatrix 1 1 [1]] = Some c ->
                        ~ In c valid_commands)
    by (intros c Hc; discriminate Hc).
  split; [exact H|].
  exact (X16_rejected_call_makes_no_transport_call
           (constant_env 0 7 (5, sample_report) None 0) initial_world 1
           [mxDoubleMatrix 1 1 [1]] H).
Defined.
